(** * Order payment lifecycle of the starfarmer backend

    A shallow embedding of the PhonePe checksum helpers
    ([server/utils/phonepe.js]), the order model with its pre-save hook
    ([server/models/order.js]), the order router with separate COD and
    online routes (COD creation, payment initiation, status polling, admin
    status update) and the server-to-server callback handler
    ([server/routes/payment.js]).

    Modelling choices:
    - JavaScript strings are [string]s (payloads, salts and identifiers are
      ASCII); JavaScript numbers are IEEE-754 binary64 values ([spec_float]
      at precision 53); a field that may be [undefined] is an [option].
    - The orders collection is the list of its documents in insertion
      order; [findOne] returns the first match.  Storage operations
      succeed.
    - A handler is a function from the store, and from the outcome of the
      external calls it makes (the gateway's answer, the decoded callback
      payload, the fresh merchant transaction id), to its reply, the new
      store and the notifications it requested.
    - Request bodies are typed as the schema types them; what base64 and
      JSON decoding produce is a parameter of the callback handler. *)

From Stdlib Require Import ZArith List String Ascii Bool Lia.
From Stdlib Require Import Floats.SpecFloat.
Import ListNotations.

Local Open Scope string_scope.
Local Open Scope Z_scope.

(* ================================================================== *)
(** ** SHA-256 ([crypto.createHash("sha256")]) on 32-bit words *)
(* ================================================================== *)

Module Sha256.

Definition w32 : Z := 2 ^ 32.

Definition add32 (x y : Z) : Z := (x + y) mod w32.

Definition rotr (n x : Z) : Z :=
  Z.lor (Z.shiftr x n) ((Z.shiftl x (32 - n)) mod w32).

Definition not32 (x : Z) : Z := w32 - 1 - x.

Definition ch (x y z : Z) : Z :=
  Z.lxor (Z.land x y) (Z.land (not32 x) z).

Definition maj (x y z : Z) : Z :=
  Z.lxor (Z.lxor (Z.land x y) (Z.land x z)) (Z.land y z).

Definition bsig0 (x : Z) : Z :=
  Z.lxor (Z.lxor (rotr 2 x) (rotr 13 x)) (rotr 22 x).

Definition bsig1 (x : Z) : Z :=
  Z.lxor (Z.lxor (rotr 6 x) (rotr 11 x)) (rotr 25 x).

Definition ssig0 (x : Z) : Z :=
  Z.lxor (Z.lxor (rotr 7 x) (rotr 18 x)) (Z.shiftr x 3).

Definition ssig1 (x : Z) : Z :=
  Z.lxor (Z.lxor (rotr 17 x) (rotr 19 x)) (Z.shiftr x 10).

(** The constants of FIPS 180-4 are derived rather than tabulated: the
    round constants are the first 32 bits of the fractional parts of the
    cube roots of the first sixty-four primes, the initial chaining value
    those of the square roots of the first eight. *)
Definition primes : list Z :=
  [ 2; 3; 5; 7; 11; 13; 17; 19; 23; 29; 31; 37; 41; 43; 47; 53;
    59; 61; 67; 71; 73; 79; 83; 89; 97; 101; 103; 107; 109; 113; 127; 131;
    137; 139; 149; 151; 157; 163; 167; 173; 179; 181; 191; 193; 197; 199;
    211; 223; 227; 229; 233; 239; 241; 251; 257; 263; 269; 271; 277; 281;
    283; 293; 307; 311 ].

(** Largest [r + k] with [k < 2 ^ bits] and [(r + k) ^ 3 <= n]. *)
Fixpoint cube_root_from (bits : nat) (n r : Z) : Z :=
  match bits with
  | O => r
  | S bits' =>
      let r' := r + 2 ^ Z.of_nat bits' in
      cube_root_from bits' n (if r' * r' * r' <=? n then r' else r)
  end.

Definition frac_cube_root (p : Z) : Z :=
  cube_root_from 36 (p * 2 ^ 96) 0 mod w32.

Definition frac_square_root (p : Z) : Z :=
  Z.sqrt (p * 2 ^ 64) mod w32.

Definition round_constants : list Z :=
  Eval vm_compute in map frac_cube_root primes.

(** The eight working variables / chaining values. *)
Record regs : Type := Regs
  { ra : Z; rb : Z; rc : Z; rd : Z; re : Z; rf : Z; rg : Z; rh : Z }.

Definition initial_regs : regs :=
  Eval vm_compute in
    match map frac_square_root (firstn 8 primes) with
    | [a; b; c; d; e; f; g; h] => Regs a b c d e f g h
    | _ => Regs 0 0 0 0 0 0 0 0
    end.

(** Padding: a 1 bit, zeros up to 56 mod 64 bytes, then the bit length as
    a 64-bit big-endian integer. *)
Definition be_bytes (count : nat) (x : Z) : list Z :=
  map (fun i => (Z.shiftr x (8 * Z.of_nat i)) mod 256) (rev (seq 0 count)).

Definition pad (msg : list Z) : list Z :=
  let len := Z.of_nat (List.length msg) in
  let zeros := Z.to_nat ((55 - len) mod 64) in
  (msg ++ [0x80] ++ repeat 0 zeros ++ be_bytes 8 (8 * len))%list.

Fixpoint be_words (bytes : list Z) : list Z :=
  match bytes with
  | b0 :: b1 :: b2 :: b3 :: rest =>
      (((b0 * 256 + b1) * 256 + b2) * 256 + b3) :: be_words rest
  | _ => []
  end.

(** Message schedule: sixteen block words extended to sixty-four. *)
Fixpoint extend (count : nat) (ws : list Z) : list Z :=
  match count with
  | O => ws
  | S count' =>
      let t := List.length ws in
      let at_ (back : nat) := nth (t - back) ws 0 in
      let wt := add32 (add32 (ssig1 (at_ 2%nat)) (at_ 7%nat))
                      (add32 (ssig0 (at_ 15%nat)) (at_ 16%nat)) in
      extend count' (ws ++ [wt])%list
  end.

Definition round (r : regs) (kw : Z * Z) : regs :=
  let (k, wt) := kw in
  let t1 := add32 (add32 (add32 (rh r) (bsig1 (re r)))
                         (add32 (ch (re r) (rf r) (rg r)) k)) wt in
  let t2 := add32 (bsig0 (ra r)) (maj (ra r) (rb r) (rc r)) in
  Regs (add32 t1 t2) (ra r) (rb r) (rc r)
       (add32 (rd r) t1) (re r) (rf r) (rg r).

Definition compress (h : regs) (block : list Z) : regs :=
  let ws := extend 48 block in
  let r := fold_left round (combine round_constants ws) h in
  Regs (add32 (ra h) (ra r)) (add32 (rb h) (rb r))
       (add32 (rc h) (rc r)) (add32 (rd h) (rd r))
       (add32 (re h) (re r)) (add32 (rf h) (rf r))
       (add32 (rg h) (rg r)) (add32 (rh h) (rh r)).

Fixpoint blocks (count : nat) (h : regs) (ws : list Z) : regs :=
  match count with
  | O => h
  | S count' => blocks count' (compress h (firstn 16 ws)) (skipn 16 ws)
  end.

Definition digest (msg : list Z) : regs :=
  let ws := be_words (pad msg) in
  blocks (List.length ws / 16) initial_regs ws.

(** [digest("hex")]: lower-case hexadecimal, most significant nibble
    first. *)
Definition hex_digit (n : Z) : ascii :=
  match n with
  | 0 => "0" | 1 => "1" | 2 => "2" | 3 => "3" | 4 => "4" | 5 => "5"
  | 6 => "6" | 7 => "7" | 8 => "8" | 9 => "9" | 10 => "a" | 11 => "b"
  | 12 => "c" | 13 => "d" | 14 => "e" | _ => "f"
  end%char.

Definition nibble (x : Z) (i : Z) : ascii :=
  hex_digit ((Z.shiftr x (4 * i)) mod 16).

Definition hex_word (x : Z) (tail : string) : string :=
  String (nibble x 7) (String (nibble x 6) (String (nibble x 5)
  (String (nibble x 4) (String (nibble x 3) (String (nibble x 2)
  (String (nibble x 1) (String (nibble x 0) tail))))))).

Definition hex_of_regs (r : regs) : string :=
  hex_word (ra r) (hex_word (rb r) (hex_word (rc r) (hex_word (rd r)
  (hex_word (re r) (hex_word (rf r) (hex_word (rg r)
  (hex_word (rh r) EmptyString))))))).

Fixpoint bytes_of_string (s : string) : list Z :=
  match s with
  | EmptyString => []
  | String c s' => Z.of_N (N_of_ascii c) :: bytes_of_string s'
  end.

(** [crypto.createHash("sha256").update(s).digest("hex")] *)
Definition sha256_hex (s : string) : string :=
  hex_of_regs (digest (bytes_of_string s)).

End Sha256.

(* ================================================================== *)
(** ** JavaScript values used by the handlers *)
(* ================================================================== *)

(** A JavaScript number is an IEEE-754 double. *)
Definition number : Type := spec_float.

Definition NaN : number := S754_nan.

Definition num_of_Z (z : Z) : number := binary_normalize 53 1024 z 0 false.

(** [x / y], [x * y], [x + y] on doubles. *)
Definition num_div (x y : number) : number := SFdiv 53 1024 x y.
Definition num_mul (x y : number) : number := SFmul 53 1024 x y.
Definition num_add (x y : number) : number := SFadd 53 1024 x y.

(** [x === y] and [x !== y] on numbers: [NaN] differs from everything. *)
Definition num_strict_eq (x y : number) : bool := SFeqb x y.
Definition num_strict_neq (x y : number) : bool := negb (SFeqb x y).

Definition isNaN (x : number) : bool :=
  match x with S754_nan => true | _ => false end.

(** Truthiness: [!x] holds of a number that is [0], [-0] or [NaN], of the
    empty string, and of [undefined] (an absent field, [None]). *)
Definition truthy_num (x : number) : bool :=
  match x with
  | S754_zero _ | S754_nan => false
  | _ => true
  end.

Definition truthy_opt_num (x : option number) : bool :=
  match x with Some n => truthy_num n | None => false end.

Definition truthy_str (s : string) : bool := negb (s =? "")%string.

Definition truthy_opt_str (x : option string) : bool :=
  match x with Some s => truthy_str s | None => false end.

(** String concatenation with a value that may be [undefined]. *)
Definition js_string (x : option string) : string :=
  match x with Some s => s | None => "undefined" end.

(** [data?.amount / 100]: [undefined / 100] is [NaN]. *)
Definition js_div_100 (x : option number) : number :=
  match x with
  | Some n => num_div n (num_of_Z 100)
  | None => NaN
  end.

Definition opt_str_is (x : option string) (lit : string) : bool :=
  match x with Some s => (s =? lit)%string | None => false end.

(* ================================================================== *)
(** ** utils/phonepe.js *)
(* ================================================================== *)

Definition calculateChecksum (payloadBase64 saltKey saltIndex : string)
  : string :=
  let stringToHash := payloadBase64 ++ "/pg/v1/pay" ++ saltKey in
  let sha256 := Sha256.sha256_hex stringToHash in
  sha256 ++ "###" ++ saltIndex.

Definition dquote : string := String "034"%char EmptyString.

(** The template literal of [verifyChecksum] contains no [${...}]
    substitution: [\{], [\}] and [\#] are plain character escapes, so its
    value is this fixed text. *)
Definition expectedChecksum_literal : string :=
  "<span class=" ++ dquote ++ "math-inline" ++ dquote
  ++ ">{sha256}###</span>{saltIndex}".

Definition verifyChecksum
  (payloadBase64 receivedChecksum saltKey saltIndex : string) : bool :=
  let stringToHash := payloadBase64 ++ saltKey in
  let sha256 := Sha256.sha256_hex stringToHash in
  let expectedChecksum := expectedChecksum_literal in
  (expectedChecksum =? receivedChecksum)%string.

(** The checksum of the callback-mode formula, in the spec's words: hex
    SHA-256 of payload followed by the salt key, then [###] and the salt
    index. *)
Definition callback_checksum (payloadBase64 saltKey saltIndex : string)
  : string :=
  Sha256.sha256_hex (payloadBase64 ++ saltKey) ++ "###" ++ saltIndex.

(* ================================================================== *)
(** ** models/order.js *)
(* ================================================================== *)

Definition ObjectId : Type := nat.

Inductive PaymentMethod : Type := cod | online.

Inductive PaymentStatus : Type := pending | paid | failed | not_applicable.

Inductive PaymentGateway : Type := gw_cod | gw_phonepe.

Inductive Status : Type :=
| payment_pending | processing | shipped | delivered
| completed | cancelled | payment_failed | payment_issue.

Record Item : Type := mkItem
  { productId : ObjectId; quantity : number; price : number }.

Record Address : Type := mkAddress
  { fullName : string; phone : string; addressLine1 : string;
    addressLine2 : option string; city : string; state : string;
    pincode : string }.

Record Order : Type := mkOrder
  { _id : ObjectId;
    userId : ObjectId;
    items : list Item;
    shippingAddress : Address;
    paymentMethod : PaymentMethod;
    shippingCharge : number;
    total : number;
    merchantTransactionId : option string;
    gatewayTransactionId : option string;
    paymentStatus : PaymentStatus;
    paymentGateway : option PaymentGateway;
    status : Status }.

(** Field assignments on a document. *)
Definition set_status (o : Order) (s : Status) : Order :=
  mkOrder (_id o) (userId o) (items o) (shippingAddress o) (paymentMethod o)
    (shippingCharge o) (total o) (merchantTransactionId o)
    (gatewayTransactionId o) (paymentStatus o) (paymentGateway o) s.

Definition set_paymentStatus (o : Order) (p : PaymentStatus) : Order :=
  mkOrder (_id o) (userId o) (items o) (shippingAddress o) (paymentMethod o)
    (shippingCharge o) (total o) (merchantTransactionId o)
    (gatewayTransactionId o) p (paymentGateway o) (status o).

Definition set_gatewayTransactionId (o : Order) (g : option string) : Order :=
  mkOrder (_id o) (userId o) (items o) (shippingAddress o) (paymentMethod o)
    (shippingCharge o) (total o) (merchantTransactionId o)
    g (paymentStatus o) (paymentGateway o) (status o).

(** What a caller hands to [Order.create]: every path may be absent, and
    the enumerated paths arrive as strings. *)
Record ItemInput : Type := mkItemInput
  { in_productId : option ObjectId;
    in_quantity : option number;
    in_price : option number }.

Record AddressInput : Type := mkAddressInput
  { in_fullName : option string; in_phone : option string;
    in_addressLine1 : option string; in_addressLine2 : option string;
    in_city : option string; in_state : option string;
    in_pincode : option string }.

Record OrderData : Type := mkOrderData
  { d_userId : option ObjectId;
    d_items : option (list ItemInput);
    d_shippingAddress : option AddressInput;
    d_paymentMethod : option string;
    d_paymentGateway : option string;
    d_shippingCharge : option number;
    d_total : option number;
    d_merchantTransactionId : option string;
    d_paymentStatus : option string;
    d_status : option string }.

(** Schema enums. *)
Definition enum_paymentMethod (s : string) : option PaymentMethod :=
  if (s =? "cod")%string then Some cod
  else if (s =? "online")%string then Some online
  else None.

Definition enum_paymentStatus (s : string) : option PaymentStatus :=
  if (s =? "pending")%string then Some pending
  else if (s =? "paid")%string then Some paid
  else if (s =? "failed")%string then Some failed
  else if (s =? "not_applicable")%string then Some not_applicable
  else None.

Definition enum_paymentGateway (s : string) : option PaymentGateway :=
  if (s =? "cod")%string then Some gw_cod
  else if (s =? "phonepe")%string then Some gw_phonepe
  else None.

Definition enum_status (s : string) : option Status :=
  if (s =? "payment_pending")%string then Some payment_pending
  else if (s =? "processing")%string then Some processing
  else if (s =? "shipped")%string then Some shipped
  else if (s =? "delivered")%string then Some delivered
  else if (s =? "completed")%string then Some completed
  else if (s =? "cancelled")%string then Some cancelled
  else if (s =? "payment_failed")%string then Some payment_failed
  else if (s =? "payment_issue")%string then Some payment_issue
  else None.

(** *** Schema validation and casting ([new Order(data)] then [validate()]) *)

(** A [Number] path rejects [NaN]. *)
Definition cast_number (x : number) : option number :=
  if isNaN x then None else Some x.

(** A required [String] path rejects [undefined] and the empty string. *)
Definition required_string (x : option string) : option string :=
  match x with
  | Some s => if truthy_str s then Some s else None
  | None => None
  end.

Definition cast_item (i : ItemInput) : option Item :=
  match in_productId i, in_quantity i, in_price i with
  | Some p, Some q, Some pr =>
      match cast_number q, cast_number pr with
      | Some q', Some pr' =>
          (* quantity: min 1 *)
          if SFleb (num_of_Z 1) q' then Some (mkItem p q' pr') else None
      | _, _ => None
      end
  | _, _, _ => None
  end.

Fixpoint cast_items (l : list ItemInput) : option (list Item) :=
  match l with
  | [] => Some []
  | i :: l' =>
      match cast_item i, cast_items l' with
      | Some i', Some l'' => Some (i' :: l'')
      | _, _ => None
      end
  end.

Definition cast_address (a : option AddressInput) : option Address :=
  match a with
  | None => None
  | Some a =>
      match required_string (in_fullName a), required_string (in_phone a),
            required_string (in_addressLine1 a), required_string (in_city a),
            required_string (in_state a), required_string (in_pincode a) with
      | Some n, Some ph, Some l1, Some c, Some st, Some pin =>
          Some (mkAddress n ph l1 (in_addressLine2 a) c st pin)
      | _, _, _, _, _, _ => None
      end
  end.

(** An enumerated path with a default: absent takes the default, a string
    outside the enumeration fails validation. *)
Definition cast_enum {A : Type} (parse : string -> option A) (default : A)
  (x : option string) : option A :=
  match x with
  | None => Some default
  | Some s => parse s
  end.

(** The document built from [data], or [None] when validation fails.
    Defaults: [items = []], [shippingCharge = 0], [paymentStatus = pending],
    [status = payment_pending]. *)
Definition new_document (id : ObjectId) (data : OrderData) : option Order :=
  match d_userId data,
        cast_items (match d_items data with Some l => l | None => [] end),
        cast_address (d_shippingAddress data),
        match d_paymentMethod data with
        | Some s => enum_paymentMethod s | None => None end,
        match d_shippingCharge data with
        | Some c => cast_number c | None => Some (num_of_Z 0) end,
        match d_total data with
        | Some t => cast_number t | None => None end with
  | Some uid, Some its, Some addr, Some pm, Some charge, Some tot =>
      match cast_enum enum_paymentStatus pending (d_paymentStatus data),
            cast_enum enum_status payment_pending (d_status data),
            match d_paymentGateway data with
            | None => Some None
            | Some s => option_map Some (enum_paymentGateway s)
            end with
      | Some ps, Some st, Some gw =>
          Some (mkOrder id uid its addr pm charge tot
                  (d_merchantTransactionId data) None ps gw st)
      | _, _, _ => None
      end
  | _, _, _, _, _, _ => None
  end.

(** [orderSchema.pre("save", ...)], run after validation on every [save]. *)
Definition pre_save (isNew : bool) (this : Order) : Order :=
  match paymentMethod this with
  | cod =>
      let this := set_paymentStatus this not_applicable in
      if isNew then set_status this processing else this
  | online =>
      if isNew
      then set_status (set_paymentStatus this pending) payment_pending
      else this
  end.

(** *** The orders collection *)

Definition Store : Type := list Order.

Inductive Error : Type :=
| AppError (message : string) (statusCode : Z)
| ValidationError.

Inductive result (A : Type) : Type :=
| Ok (a : A)
| Throw (e : Error).
Arguments Ok {A} a.
Arguments Throw {A} e.

(** A fresh [_id], distinct from every identifier in the collection. *)
Definition fresh_id (db : Store) : ObjectId :=
  S (fold_right Nat.max O (map _id db)).

Definition Order_create (data : OrderData) (db : Store)
  : result (Order * Store) :=
  match new_document (fresh_id db) data with
  | None => Throw ValidationError
  | Some doc =>
      let saved := pre_save true doc in
      Ok (saved, (db ++ [saved])%list)
  end.

Definition Order_findOne (filter : Order -> bool) (db : Store)
  : option Order :=
  find filter db.

Definition Order_findById (id : ObjectId) (db : Store) : option Order :=
  find (fun o => Nat.eqb (_id o) id) db.

(** Rewrites the stored document carrying identifier [id]; identifiers are
    unique within a collection. *)
Definition update_by_id (id : ObjectId) (f : Order -> Order) (db : Store)
  : Store :=
  map (fun d => if Nat.eqb (_id d) id then f d else d) db.

(** [order.save()] on a document loaded from the collection and saved
    before anything else writes to it: the hook runs, then the document is
    written back under its [_id].  ([save()] sends only the paths that were
    modified; while the stored document is the loaded one this is the same
    as writing the document.  [Order_save_loaded] below drops that
    assumption.) *)
Definition Order_save (order : Order) (db : Store) : Store :=
  update_by_id (_id order) (fun _ => pre_save false order) db.

(** [Order.findByIdAndUpdate(id, update)]: no [save] hook runs. *)
Definition Order_findByIdAndUpdate (id : ObjectId) (update : Order -> Order)
  (db : Store) : Store :=
  update_by_id id update db.

Definition has_mtid (m : string) (o : Order) : bool :=
  opt_str_is (merchantTransactionId o) m.

(* ================================================================== *)
(** ** HTTP replies, notifications, configuration *)
(* ================================================================== *)

(** The fields kept by [.select("paymentStatus status _id")]. *)
Record OrderSelection : Type := mkSelection
  { sel_id : ObjectId;
    sel_paymentStatus : PaymentStatus;
    sel_status : Status }.

Definition select_status_fields (o : Order) : OrderSelection :=
  mkSelection (_id o) (paymentStatus o) (status o).

Inductive Reply : Type :=
| SendText (code : Z) (text : string)
    (* res.status(code).send(text) *)
| SendOrder (code : Z) (order : Order)
    (* res.status(code).json({ status: "success", data: { order } }) *)
| SendRedirect (redirectUrl : string)
    (* res.json({ status: "success", redirectUrl }) *)
| SendPaymentStatus (orderId : ObjectId) (ps : PaymentStatus)
    (* res.json({ status: "success", orderId, paymentStatus }) *)
| Next (e : Error).
    (* next(error) *)

(** The HTTP status a reply is sent with ([res.json] alone sends 200, an
    [AppError] carries its own status code). *)
Definition reply_status (r : Reply) : option Z :=
  match r with
  | SendText c _ => Some c
  | SendOrder c _ => Some c
  | SendRedirect _ => Some 200
  | SendPaymentStatus _ _ => Some 200
  | Next (AppError _ c) => Some c
  | Next ValidationError => None
  end.

Inductive Notification : Type :=
| OrderConfirmation (user : ObjectId) (order : ObjectId)
| AdminNotification (order : ObjectId).

(** [sendOrderConfirmation] and [sendOrderNotificationToAdmin] for a
    populated order; the user an order refers to is taken to exist. *)
Definition order_emails (o : Order) : list Notification :=
  [OrderConfirmation (userId o) (_id o); AdminNotification (_id o)].

(** [process.env]: each variable is a string or [undefined]. *)
Record Env : Type := mkEnv
  { PHONEPE_MERCHANT_ID : option string;
    PHONEPE_SALT_KEY : option string;
    PHONEPE_SALT_INDEX : option string;
    PHONEPE_PAY_API_URL : option string;
    PHONEPE_REDIRECT_URL : option string;
    PHONEPE_CALLBACK_URL : option string }.

(** [req.user], attached by the [protect] middleware. *)
Record User : Type := mkUser { user_id : ObjectId; user_email : string }.

Definition Outcome : Type := (Reply * Store * list Notification)%type.

(* ================================================================== *)
(** ** Order routes *)
(* ================================================================== *)

(** [req.body] of the two order-creation routes.  [b_paymentStatus] and
    [b_status] stand for lifecycle values a caller may put in the body.
    Fields are typed as the schema types them: a body whose [total] is a
    non-empty string, which passes the [!total] test whatever number it
    casts to, is not represented. *)
Record OrderBody : Type := mkOrderBody
  { b_paymentMethod : option string;
    b_items : option (list ItemInput);
    b_shippingAddress : option AddressInput;
    b_shippingCharge : option number;
    b_total : option number;
    b_paymentStatus : option string;
    b_status : option string }.

Definition is_some {A : Type} (x : option A) : bool :=
  match x with Some _ => true | None => false end.

Definition items_empty (x : option (list ItemInput)) : bool :=
  match x with Some [] => true | _ => false end.

(** [router.post("/")]: COD order creation. *)
Definition create_cod_order (user : User) (body : OrderBody) (db : Store)
  : Outcome :=
  if negb (opt_str_is (b_paymentMethod body) "cod") then
    (Next (AppError
       "This endpoint is only for COD orders. Use /initiate-payment for online."
       400), db, [])
  else
    let orderData :=
      mkOrderData (Some (user_id user)) (b_items body)
        (b_shippingAddress body) (Some "cod") (Some "cod")
        (b_shippingCharge body) (b_total body) None None None in
    if negb (is_some (d_shippingAddress orderData))
       || negb (truthy_opt_num (d_total orderData))
       || negb (is_some (d_items orderData))
       || items_empty (d_items orderData)
    then (Next (AppError "Missing required order data for COD." 400), db, [])
    else
      match Order_create orderData db with
      | Throw e => (Next e, db, [])
      | Ok (order, db') =>
          match Order_findById (_id order) db' with
          | None =>
              (Next (AppError
                 "Failed to create or retrieve order after creation." 500),
               db', [])
          | Some order => (SendOrder 201 order, db', order_emails order)
          end
      end.

(** What [axios.request] yields: a 2xx response body, or a rejection (no
    response at all, or a response with a non-2xx status). *)
Record PhonePeResponse : Type := mkPhonePeResponse
  { resp_success : bool;
    resp_message : option string;
    resp_redirect_url : option string }.

Inductive AxiosResult : Type :=
| Resolved (data : PhonePeResponse)
| Rejected (response_status : option Z) (response_message : option string)
           (message : string).

Definition or_default (x : option string) (default : string) : string :=
  match x with
  | Some s => if truthy_str s then s else default
  | None => default
  end.

Definition status_or_500 (x : option Z) : Z :=
  match x with
  | Some c => if c =? 0 then 500 else c
  | None => 500
  end.

Definition env_configured (env : Env) : bool :=
  truthy_opt_str (PHONEPE_MERCHANT_ID env)
  && truthy_opt_str (PHONEPE_SALT_KEY env)
  && truthy_opt_str (PHONEPE_SALT_INDEX env)
  && truthy_opt_str (PHONEPE_PAY_API_URL env)
  && truthy_opt_str (PHONEPE_REDIRECT_URL env)
  && truthy_opt_str (PHONEPE_CALLBACK_URL env).

Definition mark_payment_failed (o : Order) : Order :=
  set_paymentStatus (set_status o payment_failed) failed.

(** [router.post("/initiate-payment")].  [merchantTransactionId] is the
    value drawn by [generateMerchantTransactionId()], [gateway] the outcome
    of the call to the pay API. *)
Definition initiate_payment (env : Env) (user : User) (body : OrderBody)
  (merchantTransactionId : string) (gateway : AxiosResult) (db : Store)
  : Outcome :=
  if negb (opt_str_is (b_paymentMethod body) "online") then
    (Next (AppError
       "This endpoint is only for online payments via PhonePe." 400), db, [])
  else
    let userPhone :=
      match b_shippingAddress body with
      | Some a => in_phone a
      | None => None
      end in
    if negb (is_some (b_shippingAddress body))
       || negb (truthy_opt_num (b_total body))
       || negb (is_some (b_items body))
       || items_empty (b_items body)
       || negb (truthy_opt_str userPhone)
    then (Next (AppError
            "Missing required data for online payment initiation." 400),
          db, [])
    else if negb (env_configured env) then
      (Next (AppError "Payment gateway configuration error." 500), db, [])
    else
      let orderData :=
        mkOrderData (Some (user_id user)) (b_items body)
          (b_shippingAddress body) (Some "online") (Some "phonepe")
          (b_shippingCharge body) (b_total body)
          (Some merchantTransactionId) None None in
      match Order_create orderData db with
      | Throw e => (Next e, db, [])
      | Ok (order, db') =>
          match gateway with
          | Resolved data =>
              if resp_success data
                 && truthy_opt_str (resp_redirect_url data)
              then (SendRedirect (js_string (resp_redirect_url data)),
                    db', [])
              else
                let db'' :=
                  Order_findByIdAndUpdate (_id order) mark_payment_failed
                    db' in
                (Next (AppError
                   (or_default (resp_message data)
                      "Failed to initiate payment with PhonePe.") 500),
                 db'', [])
          | Rejected st msg errmsg =>
              (Next (AppError
                 ("PhonePe API Error: " ++ or_default msg errmsg)
                 (status_or_500 st)), db', [])
          end
      end.

(** [router.get("/status-by-mtid/:mtid")]. *)
Definition status_query (mtid : string) (user : User) (o : Order) : bool :=
  has_mtid mtid o && Nat.eqb (userId o) (user_id user).

Definition order_status_by_mtid (user : User) (mtid : string) (db : Store)
  : Reply :=
  let merchantTransactionId := mtid in
  if negb (truthy_str merchantTransactionId) then
    Next (AppError "Merchant Transaction ID is required." 400)
  else
    match option_map select_status_fields
            (Order_findOne (status_query merchantTransactionId user) db) with
    | None => Next (AppError "Order not found for this transaction ID." 404)
    | Some order => SendPaymentStatus (sel_id order) (sel_paymentStatus order)
    end.

(** [router.patch("/:id/status")], admin only. *)
Definition update_order_status (id : ObjectId) (new_status : option string)
  (db : Store) : Reply * Store :=
  match new_status with
  | None => (Next (AppError "Please provide a status to update." 400), db)
  | Some s =>
      if negb (truthy_str s) then
        (Next (AppError "Please provide a status to update." 400), db)
      else
        match enum_status s with
        | None => (Next (AppError ("Invalid status value: " ++ s) 400), db)
        | Some st =>
            let db' :=
              Order_findByIdAndUpdate id (fun o => set_status o st) db in
            match Order_findById id db' with
            | None => (Next (AppError "No order found with that ID" 404), db')
            | Some order => (SendOrder 200 order, db')
            end
        end
  end.

(* ================================================================== *)
(** ** routes/payment.js: the gateway callback *)
(* ================================================================== *)

(** The inbound request: [req.body.response] and [req.headers["x-verify"]]. *)
Record CallbackRequest : Type := mkCallbackRequest
  { response : option string;
    x_verify : option string }.

(** The decoded payload: [{ success, code, message, data }] with the fields
    of [data] the handler reads.  An absent field is [undefined]. *)
Record CallbackData : Type := mkCallbackData
  { cb_merchantTransactionId : option string;
    cb_transactionId : option string;
    cb_state : option string;
    cb_responseCode : option string;
    cb_amount : option number }.

Record Callback : Type := mkCallback
  { cb_success : bool;
    cb_code : option string;
    cb_message : option string;
    cb_data : option CallbackData }.

(** [data?.field] *)
Definition data_field {A : Type} (f : CallbackData -> option A)
  (data : option CallbackData) : option A :=
  match data with
  | Some d => f d
  | None => None
  end.

(** The gateway's success combination, as tested by the handler. *)
Definition is_payment_success (cb : Callback) : bool :=
  cb_success cb
  && opt_str_is (cb_code cb) "PAYMENT_SUCCESS"
  && opt_str_is (data_field cb_state (cb_data cb)) "COMPLETED"
  && opt_str_is (data_field cb_responseCode (cb_data cb)) "SUCCESS".

(** The handler stopped at [await order.save()]: the local document with
    its assignments made, and the [sendEmails] flag. *)
Inductive Suspended : Type :=
| AwaitSave (order : Order) (sendEmails : bool).

Section Callback.

(** [JSON.parse(Buffer.from(s, "base64").toString("utf8"))] followed by
    the destructuring of the result; [None] when either throws. *)
Variable decode : string -> option Callback.

Variable env : Env.

(** The assignments of step 6 on the local document. *)
Definition classify (cb : Callback) (order : Order) : Suspended :=
  let data := cb_data cb in
  let gatewayTransactionId := data_field cb_transactionId data in
  if is_payment_success cb then
    let paymentAmount := js_div_100 (data_field cb_amount data) in
    let order :=
      if num_strict_neq paymentAmount (total order)
      then set_paymentStatus (set_status order payment_issue) paid
      else set_paymentStatus (set_status order processing) paid in
    AwaitSave (set_gatewayTransactionId order gatewayTransactionId) true
  else
    let order := set_paymentStatus (set_status order payment_failed) failed in
    AwaitSave (set_gatewayTransactionId order gatewayTransactionId) false.

(** From the start of the handler to the reply, or to the point where it
    awaits [order.save()].  The store is only read, by [Order.findOne]. *)
Definition callback_until_save (req : CallbackRequest) (db : Store)
  : Reply + Suspended :=
  if negb (truthy_opt_str (response req)) then
    inl (SendText 400 "Invalid callback: Missing response payload")
  else
    let encodedResponse := js_string (response req) in
    if negb (truthy_opt_str (x_verify req)) then
      inl (SendText 400 "Invalid callback: Missing verification header")
    else
      let receivedChecksum := js_string (x_verify req) in
      let isVerified :=
        verifyChecksum encodedResponse receivedChecksum
          (js_string (PHONEPE_SALT_KEY env))
          (js_string (PHONEPE_SALT_INDEX env)) in
      if negb isVerified then inl (SendText 400 "Checksum mismatch")
      else
        match decode encodedResponse with
        | None =>
            inl (SendText 500 "Internal Server Error processing callback.")
        | Some decodedResponse =>
            let merchantTransactionId :=
              data_field cb_merchantTransactionId
                (cb_data decodedResponse) in
            if negb (truthy_opt_str merchantTransactionId) then
              inl (SendText 200
                "Callback acknowledged, missing merchant transaction ID.")
            else
              match Order_findOne
                      (has_mtid (js_string merchantTransactionId)) db with
              | None => inl (SendText 200 "Order not found, acknowledged.")
              | Some order =>
                  match paymentStatus order with
                  | paid | failed =>
                      inl (SendText 200 "Already processed.")
                  | _ => inr (classify decodedResponse order)
                  end
              end
        end.

(** From [order.save()] to the reply: the write, then the e-mails of
    step 7 when [sendEmails] is set. *)
Definition callback_after_save (s : Suspended) (db : Store) : Outcome :=
  match s with
  | AwaitSave order sendEmails =>
      let db' := Order_save order db in
      let emails :=
        if sendEmails then
          match Order_findById (_id order) db' with
          | Some populatedOrder => order_emails populatedOrder
          | None => []
          end
        else [] in
      (SendText 200 "Callback processed successfully.", db', emails)
  end.

(** [router.post("/phonepe-callback")], run without interruption. *)
Definition phonepe_callback (req : CallbackRequest) (db : Store)
  : Outcome :=
  match callback_until_save req db with
  | inl reply => (reply, db, [])
  | inr s => callback_after_save s db
  end.

(** *** Two deliveries in flight

    Each delivery is a task that yields at its [await]s.  A task is
    [Fresh] until it has run up to [order.save()], [Waiting] while the
    save is pending, and [Finished] once it has replied. *)
Inductive Task : Type :=
| Fresh (req : CallbackRequest)
| Waiting (s : Suspended)
| Finished (reply : Reply).

Record World : Type := mkWorld
  { w_db : Store;
    w_saves : nat;               (* calls to [order.save()] so far *)
    w_emails : list Notification }.

(** One scheduling step of one task. *)
Definition step_task (t : Task) (w : World) : Task * World :=
  match t with
  | Fresh req =>
      match callback_until_save req (w_db w) with
      | inl reply => (Finished reply, w)
      | inr s => (Waiting s, w)
      end
  | Waiting s =>
      match callback_after_save s (w_db w) with
      | (reply, db', emails) =>
          (Finished reply,
           mkWorld db' (S (w_saves w)) (w_emails w ++ emails)%list)
      end
  | Finished reply => (Finished reply, w)
  end.

(** A schedule names, step by step, which of the two tasks runs next
    ([false] the first, [true] the second). *)
Fixpoint run (schedule : list bool) (t1 t2 : Task) (w : World)
  : Task * Task * World :=
  match schedule with
  | [] => (t1, t2, w)
  | false :: rest =>
      let (t1', w') := step_task t1 w in run rest t1' t2 w'
  | true :: rest =>
      let (t2', w') := step_task t2 w in run rest t1 t2' w'
  end.

End Callback.

(* ================================================================== *)
(** ** Properties of stores and requests used in the statements *)
(* ================================================================== *)

(** Orders reachable through a merchant transaction id are online orders:
    only [initiate_payment] stores a [merchantTransactionId]. *)
Definition store_ok (db : Store) : Prop :=
  forall o, In o db ->
    merchantTransactionId o <> None -> paymentMethod o = online.

(** The request passes steps 1 and 2 of the handler and decodes to [cb],
    whose merchant transaction id is [m]. *)
Definition verified_callback (decode : string -> option Callback) (env : Env)
  (req : CallbackRequest) (cb : Callback) (m : string) : Prop :=
  exists payload header,
    response req = Some payload /\ truthy_str payload = true /\
    x_verify req = Some header /\ truthy_str header = true /\
    verifyChecksum payload header (js_string (PHONEPE_SALT_KEY env))
      (js_string (PHONEPE_SALT_INDEX env)) = true /\
    decode payload = Some cb /\
    data_field cb_merchantTransactionId (cb_data cb) = Some m /\
    truthy_str m = true.

(** In the spec's words: the sum over the items of quantity times unit
    price, plus the shipping charge. *)
Definition items_sum (l : list Item) : number :=
  fold_left (fun acc i => num_add acc (num_mul (quantity i) (price i)))
    l (num_of_Z 0).

Definition total_matches_items (o : Order) : bool :=
  num_strict_eq (total o) (num_add (items_sum (items o)) (shippingCharge o)).

(** In the claim's words: the success flag is true and the triple (result
    code, payment state, response code) is the gateway's success
    combination. *)
Definition success_combination (cb : Callback) : Prop :=
  cb_success cb = true
  /\ cb_code cb = Some "PAYMENT_SUCCESS"
  /\ data_field cb_state (cb_data cb) = Some "COMPLETED"
  /\ data_field cb_responseCode (cb_data cb) = Some "SUCCESS".

(** The document a suspended handler is about to save. *)
Definition saved_order (s : Suspended) : Order :=
  match s with AwaitSave order _ => order end.

(** The lifecycle state step 6 assigns for callback [cb] on an order whose
    total is [t]. *)
Definition callback_paymentStatus (cb : Callback) : PaymentStatus :=
  if is_payment_success cb then paid else failed.

Definition callback_status (cb : Callback) (t : number) : Status :=
  if is_payment_success cb then
    if num_strict_eq
         (js_div_100 (data_field cb_amount (cb_data cb))) t
    then processing else payment_issue
  else payment_failed.

Definition outcome_store (x : Outcome) : Store := snd (fst x).
Definition outcome_reply (x : Outcome) : Reply := fst (fst x).

(** The stores the routes can build, starting from the empty collection. *)
Inductive Reachable : Store -> Prop :=
| reach_empty : Reachable []
| reach_create_cod_order user body db :
    Reachable db ->
    Reachable (outcome_store (create_cod_order user body db))
| reach_initiate_payment env user body m gateway db :
    Reachable db ->
    Reachable (outcome_store (initiate_payment env user body m gateway db))
| reach_phonepe_callback decode env req db :
    Reachable db ->
    Reachable (outcome_store (phonepe_callback decode env req db))
| reach_update_order_status id new_status db :
    Reachable db ->
    Reachable (snd (update_order_status id new_status db)).

(* ================================================================== *)
(** ** Sample data *)
(* ================================================================== *)

Module Sample.

Definition env : Env :=
  mkEnv (Some "MERCHANT") (Some "salt-key") (Some "1")
    (Some "https://gateway.example/pg/v1/pay")
    (Some "https://shop.example/payment-status")
    (Some "https://shop.example/api/payments/phonepe-callback").

Definition alice : User := mkUser 7%nat "alice@example.com".
Definition bob : User := mkUser 8%nat "bob@example.com".

Definition address : Address :=
  mkAddress "Alice" "+91 98765 43210" "1 Farm Road" None "Pune"
    "Maharashtra" "411001".

Definition address_input : AddressInput :=
  mkAddressInput (Some "Alice") (Some "+91 98765 43210")
    (Some "1 Farm Road") None (Some "Pune") (Some "Maharashtra")
    (Some "411001").

(** An online order of 500.00 awaiting its callback. *)
Definition pending_order : Order :=
  mkOrder 1%nat 7%nat [mkItem 21%nat (num_of_Z 2) (num_of_Z 250)] address
    online (num_of_Z 0) (num_of_Z 500) (Some "MT_1") None pending
    (Some gw_phonepe) payment_pending.

Definition paid_order : Order :=
  set_gatewayTransactionId
    (set_paymentStatus (set_status pending_order processing) paid)
    (Some "T1").

Definition callback_data (amount : option number) : CallbackData :=
  mkCallbackData (Some "MT_1") (Some "T1") (Some "COMPLETED")
    (Some "SUCCESS") amount.

Definition success_callback (amount : option number) : Callback :=
  mkCallback true (Some "PAYMENT_SUCCESS") (Some "Your payment is successful.")
    (Some (callback_data amount)).

Definition failure_callback : Callback :=
  mkCallback false (Some "PAYMENT_ERROR") (Some "Payment declined")
    (Some (mkCallbackData (Some "MT_1") (Some "T2") (Some "FAILED")
             (Some "PAYMENT_ERROR") (Some (num_of_Z 50000)))).

(** A stand-in for base64 and JSON decoding on four named payloads. *)
Definition decode (payload : string) : option Callback :=
  if (payload =? "paid-50000")%string
  then Some (success_callback (Some (num_of_Z 50000)))
  else if (payload =? "paid-40000")%string
  then Some (success_callback (Some (num_of_Z 40000)))
  else if (payload =? "paid-no-amount")%string
  then Some (success_callback None)
  else if (payload =? "declined")%string
  then Some failure_callback
  else None.

(** A request the handler's verification lets through, and one it does
    not. *)
Definition accepted_request (payload : string) : CallbackRequest :=
  mkCallbackRequest (Some payload) (Some expectedChecksum_literal).

Definition signed_request (payload : string) : CallbackRequest :=
  mkCallbackRequest (Some payload)
    (Some (callback_checksum payload "salt-key" "1")).

Definition item_input : ItemInput :=
  mkItemInput (Some 21%nat) (Some (num_of_Z 1)) (Some (num_of_Z 100)).

(** A COD body whose total (5) is not 1 x 100 + 0, and which also carries
    lifecycle values of the caller's choosing. *)
Definition cod_body : OrderBody :=
  mkOrderBody (Some "cod") (Some [item_input]) (Some address_input)
    (Some (num_of_Z 0)) (Some (num_of_Z 5)) (Some "paid") (Some "delivered").

Definition online_body : OrderBody :=
  mkOrderBody (Some "online") (Some [item_input]) (Some address_input)
    (Some (num_of_Z 0)) (Some (num_of_Z 5)) (Some "paid") (Some "delivered").

(** The order [create_cod_order] stores for [cod_body] in an empty
    collection. *)
Definition cod_created : Order :=
  mkOrder 1%nat 7%nat [mkItem 21%nat (num_of_Z 1) (num_of_Z 100)] address
    cod (num_of_Z 0) (num_of_Z 5) None None not_applicable (Some gw_cod)
    processing.

(** The order [initiate_payment] stores for [online_body]. *)
Definition online_created : Order :=
  mkOrder 1%nat 7%nat [mkItem 21%nat (num_of_Z 1) (num_of_Z 100)] address
    online (num_of_Z 0) (num_of_Z 5) (Some "MT_1") None pending
    (Some gw_phonepe) payment_pending.

Definition failed_order : Order :=
  set_gatewayTransactionId (mark_payment_failed pending_order) (Some "T2").

(** A COD body without a total. *)
Definition no_total_body : OrderBody :=
  mkOrderBody (Some "cod") (Some [item_input]) (Some address_input)
    (Some (num_of_Z 0)) None None None.

(** Creation data for [Order.create] with lifecycle values supplied. *)
Definition cod_data : OrderData :=
  mkOrderData (Some 7%nat) (Some [item_input]) (Some address_input)
    (Some "cod") (Some "cod") (Some (num_of_Z 0)) (Some (num_of_Z 5)) None
    (Some "paid") (Some "delivered").

Definition redirect_response : AxiosResult :=
  Resolved (mkPhonePeResponse true None
              (Some "https://gateway.example/pay/1")).

End Sample.

(* ================================================================== *)
(** ** Further code of the cited files *)
(* ================================================================== *)

(** *** utils/phonepe.js: [generateMerchantTransactionId] *)

(** [s.replace(/-/g, "")] *)
Fixpoint remove_dashes (s : string) : string :=
  match s with
  | EmptyString => EmptyString
  | String c s' =>
      if Ascii.eqb c "-" then remove_dashes s'
      else String c (remove_dashes s')
  end.

(** [`MT_${uuidv4().replace(/-/g, "")}`], as a function of the value
    [uuidv4()] returns. *)
Definition generateMerchantTransactionId (uuid : string) : string :=
  "MT_" ++ remove_dashes uuid.

Definition is_hex_lower (c : ascii) : bool :=
  let n := nat_of_ascii c in
  ((48 <=? n) && (n <=? 57) || (97 <=? n) && (n <=? 102))%nat.

Fixpoint string_forall (p : ascii -> bool) (s : string) : bool :=
  match s with
  | EmptyString => true
  | String c s' => p c && string_forall p s'
  end.

(** The textual form of a UUID: 36 characters, a dash at offsets 8, 13, 18
    and 23, hexadecimal digits elsewhere. *)
Definition dash_offset (pos : nat) : bool :=
  (Nat.eqb pos 8 || Nat.eqb pos 13 || Nat.eqb pos 18 || Nat.eqb pos 23)%bool.

Fixpoint uuid_from (pos : nat) (s : string) : bool :=
  match s with
  | EmptyString => Nat.eqb pos 36
  | String c s' =>
      (if dash_offset pos then Ascii.eqb c "-" else is_hex_lower c)
      && uuid_from (S pos) s'
  end.

Definition is_uuid (s : string) : bool := uuid_from 0 s.

(** *** The mobile number sent to the gateway

    [userPhone.replace(/[^0-9]/g, "").slice(-10)] *)
Definition is_digit (c : ascii) : bool :=
  let n := nat_of_ascii c in ((48 <=? n) && (n <=? 57))%nat.

Fixpoint strip_non_digits (s : string) : string :=
  match s with
  | EmptyString => EmptyString
  | String c s' =>
      if is_digit c then String c (strip_non_digits s')
      else strip_non_digits s'
  end.

Fixpoint string_drop (n : nat) (s : string) : string :=
  match n, s with
  | O, _ => s
  | S n', String _ s' => string_drop n' s'
  | S _, EmptyString => EmptyString
  end.

(** [s.slice(-n)]: the last [n] characters, or all of [s] when it is
    shorter. *)
Definition slice_last (n : nat) (s : string) : string :=
  string_drop (String.length s - n) s.

Definition mobileNumber (userPhone : string) : string :=
  slice_last 10 (strip_non_digits userPhone).

(** *** The read routes of the order router *)

(** [router.get("/my-orders")]: the [orders] array of the reply,
    [Order.find({ userId }).sort({ createdAt: -1 })].  Documents are
    stamped when they are inserted, so newest first is the reverse of the
    insertion order. *)
Definition my_orders (user : User) (db : Store) : list Order :=
  rev (filter (fun o => Nat.eqb (userId o) (user_id user)) db).

(** [router.get("/:id")] *)
Definition get_order (user : User) (id : ObjectId) (db : Store) : Reply :=
  match Order_findOne
          (fun o => Nat.eqb (_id o) id && Nat.eqb (userId o) (user_id user))
          db with
  | None => Next (AppError "No order found with that ID for this user." 404)
  | Some order => SendOrder 200 order
  end.

(** *** server/routes/orders.js: the earlier order router

    [router.post("/")]: [Order.create({ userId: req.user._id, ...req.body })].
    The body is spread after [userId], so a [userId] in the body replaces
    the requester's. *)
Definition legacy_order_data (user : User) (body : OrderData) : OrderData :=
  mkOrderData
    (match d_userId body with
     | Some u => Some u
     | None => Some (user_id user)
     end)
    (d_items body) (d_shippingAddress body) (d_paymentMethod body)
    (d_paymentGateway body) (d_shippingCharge body) (d_total body)
    (d_merchantTransactionId body) (d_paymentStatus body) (d_status body).

Definition legacy_create_order (user : User) (body : OrderData) (db : Store)
  : Outcome :=
  match Order_create (legacy_order_data user body) db with
  | Throw e => (Next e, db, [])
  | Ok (order, db') => (SendOrder 201 order, db', [])
  end.

(** *** Predicates on documents and stores *)

(** The paths no route assigns after creation. *)
Definition fixed_part (o : Order) :=
  (_id o, userId o, items o, shippingAddress o, paymentMethod o,
   shippingCharge o, total o, merchantTransactionId o, paymentGateway o).

(** Payment method, payment status, gateway and transaction ids agree. *)
Definition order_consistent (o : Order) : Prop :=
  match paymentMethod o with
  | cod =>
      paymentStatus o = not_applicable
      /\ merchantTransactionId o = None
      /\ gatewayTransactionId o = None
      /\ paymentGateway o = Some gw_cod
  | online =>
      paymentStatus o <> not_applicable
      /\ merchantTransactionId o <> None
      /\ paymentGateway o = Some gw_phonepe
  end.

(** What the schema and the creation routes check of an order. *)
Definition item_valid (i : Item) : bool :=
  negb (isNaN (quantity i)) && SFleb (num_of_Z 1) (quantity i)
  && negb (isNaN (price i)).

Definition address_valid (a : Address) : bool :=
  truthy_str (fullName a) && truthy_str (phone a)
  && truthy_str (addressLine1 a) && truthy_str (city a)
  && truthy_str (state a) && truthy_str (pincode a).

Definition order_valid (o : Order) : bool :=
  match items o with [] => false | _ :: _ => true end
  && forallb item_valid (items o)
  && address_valid (shippingAddress o)
  && negb (isNaN (total o))
  && negb (isNaN (shippingCharge o)).

Definition ids_unique (db : Store) : Prop := NoDup (map _id db).

(** No stored order carries merchant transaction id [m]. *)
Definition mtid_unused (m : string) (db : Store) : Prop :=
  forall d, In d db -> merchantTransactionId d <> Some m.

(** The writes the routes of the order router and the callback handler
    perform on the collection: none; the insertion of a new COD order; the
    insertion of a new online order, marked failed when the gateway
    answered with an explicit failure; the save of the callback's
    assignments on a stored order that has a merchant transaction id and
    is neither paid nor failed; an assignment to [status]. *)
Inductive StoreStep (db : Store) : Store -> Prop :=
| step_none : StoreStep db db
| step_insert_cod data doc i l :
    new_document (fresh_id db) data = Some doc ->
    d_paymentMethod data = Some "cod" ->
    d_paymentGateway data = Some "cod" ->
    d_merchantTransactionId data = None ->
    truthy_opt_num (d_total data) = true ->
    d_items data = Some (i :: l) ->
    StoreStep db (db ++ [pre_save true doc])%list
| step_insert_online data doc i l m (gateway_failed : bool) :
    new_document (fresh_id db) data = Some doc ->
    d_paymentMethod data = Some "online" ->
    d_paymentGateway data = Some "phonepe" ->
    d_merchantTransactionId data = Some m ->
    truthy_opt_num (d_total data) = true ->
    d_items data = Some (i :: l) ->
    StoreStep db
      (db ++ [if gateway_failed
              then mark_payment_failed (pre_save true doc)
              else pre_save true doc])%list
| step_callback o cb :
    In o db ->
    merchantTransactionId o <> None ->
    paymentStatus o <> paid -> paymentStatus o <> failed ->
    StoreStep db (Order_save (saved_order (classify cb o)) db)
| step_status id st :
    StoreStep db (update_by_id id (fun o => set_status o st) db).

(** The store after one request to one of the routes. *)
Inductive RouteResult (db : Store) : Store -> Prop :=
| result_create_cod_order user body :
    RouteResult db (outcome_store (create_cod_order user body db))
| result_initiate_payment env user body m gateway :
    RouteResult db
      (outcome_store (initiate_payment env user body m gateway db))
| result_phonepe_callback decode env req :
    RouteResult db (outcome_store (phonepe_callback decode env req db))
| result_update_order_status id new_status :
    RouteResult db (snd (update_order_status id new_status db)).

(** *** Saving a document that was loaded earlier

    A document remembers the values it was loaded with, and [save()] sends
    to the collection only the paths whose value has changed since.  On a
    document loaded by the callback handler these can only be [status],
    [paymentStatus] and [gatewayTransactionId], the paths the handler and
    the hook assign.  [Order_save] above is what this amounts to when the
    stored document still is the loaded one. *)
Definition Status_eqb (a b : Status) : bool :=
  match a, b with
  | payment_pending, payment_pending | processing, processing
  | shipped, shipped | delivered, delivered | completed, completed
  | cancelled, cancelled | payment_failed, payment_failed
  | payment_issue, payment_issue => true
  | _, _ => false
  end.

Definition PaymentStatus_eqb (a b : PaymentStatus) : bool :=
  match a, b with
  | pending, pending | paid, paid | failed, failed
  | not_applicable, not_applicable => true
  | _, _ => false
  end.

Definition opt_string_eqb (a b : option string) : bool :=
  match a, b with
  | Some x, Some y => (x =? y)%string
  | None, None => true
  | _, _ => false
  end.

(** The update [local.save()] applies to the stored document, [loaded]
    being what [local] was loaded as. *)
Definition write_modified_paths (loaded local stored : Order) : Order :=
  let stored :=
    if Status_eqb (status local) (status loaded) then stored
    else set_status stored (status local) in
  let stored :=
    if PaymentStatus_eqb (paymentStatus local) (paymentStatus loaded)
    then stored
    else set_paymentStatus stored (paymentStatus local) in
  if opt_string_eqb (gatewayTransactionId local)
       (gatewayTransactionId loaded)
  then stored
  else set_gatewayTransactionId stored (gatewayTransactionId local).

Definition Order_save_loaded (loaded local : Order) (db : Store) : Store :=
  update_by_id (_id local)
    (write_modified_paths loaded (pre_save false local)) db.

Section TrackedCallback.

Variable decode : string -> option Callback.
Variable env : Env.

(** The handler up to [await order.save()], keeping the document as
    [Order.findOne] loaded it beside the assignments made on it. *)
Definition callback_until_save_loaded (req : CallbackRequest) (db : Store)
  : Reply + (Order * Suspended) :=
  if negb (truthy_opt_str (response req)) then
    inl (SendText 400 "Invalid callback: Missing response payload")
  else
    let encodedResponse := js_string (response req) in
    if negb (truthy_opt_str (x_verify req)) then
      inl (SendText 400 "Invalid callback: Missing verification header")
    else
      let receivedChecksum := js_string (x_verify req) in
      let isVerified :=
        verifyChecksum encodedResponse receivedChecksum
          (js_string (PHONEPE_SALT_KEY env))
          (js_string (PHONEPE_SALT_INDEX env)) in
      if negb isVerified then inl (SendText 400 "Checksum mismatch")
      else
        match decode encodedResponse with
        | None =>
            inl (SendText 500 "Internal Server Error processing callback.")
        | Some decodedResponse =>
            let merchantTransactionId :=
              data_field cb_merchantTransactionId
                (cb_data decodedResponse) in
            if negb (truthy_opt_str merchantTransactionId) then
              inl (SendText 200
                "Callback acknowledged, missing merchant transaction ID.")
            else
              match Order_findOne
                      (has_mtid (js_string merchantTransactionId)) db with
              | None => inl (SendText 200 "Order not found, acknowledged.")
              | Some order =>
                  match paymentStatus order with
                  | paid | failed =>
                      inl (SendText 200 "Already processed.")
                  | _ => inr (order, classify decodedResponse order)
                  end
              end
        end.

Definition callback_after_save_loaded (loaded : Order) (s : Suspended)
  (db : Store) : Outcome :=
  match s with
  | AwaitSave order sendEmails =>
      let db' := Order_save_loaded loaded order db in
      let emails :=
        if sendEmails then
          match Order_findById (_id order) db' with
          | Some populatedOrder => order_emails populatedOrder
          | None => []
          end
        else [] in
      (SendText 200 "Callback processed successfully.", db', emails)
  end.

Inductive LoadedTask : Type :=
| NotStarted (req : CallbackRequest)
| Saving (loaded : Order) (s : Suspended)
| Replied (reply : Reply).

Definition step_loaded (t : LoadedTask) (w : World) : LoadedTask * World :=
  match t with
  | NotStarted req =>
      match callback_until_save_loaded req (w_db w) with
      | inl reply => (Replied reply, w)
      | inr (loaded, s) => (Saving loaded s, w)
      end
  | Saving loaded s =>
      match callback_after_save_loaded loaded s (w_db w) with
      | (reply, db', emails) =>
          (Replied reply,
           mkWorld db' (S (w_saves w)) (w_emails w ++ emails)%list)
      end
  | Replied reply => (Replied reply, w)
  end.

Fixpoint run_loaded (schedule : list bool) (t1 t2 : LoadedTask) (w : World)
  : LoadedTask * LoadedTask * World :=
  match schedule with
  | [] => (t1, t2, w)
  | false :: rest =>
      let (t1', w') := step_loaded t1 w in run_loaded rest t1' t2 w'
  | true :: rest =>
      let (t2', w') := step_loaded t2 w in run_loaded rest t1 t2' w'
  end.

End TrackedCallback.

Module Fixture.

Definition uuid : string := "9b1deb4d-3b7d-4bad-9bdd-2b0d7b3dcb6d".

(** A body for the earlier router: a COD order placed in Bob's name that
    carries a merchant transaction id. *)
Definition spoofed_cod_data : OrderData :=
  mkOrderData (Some 8%nat) (Some [Sample.item_input])
    (Some Sample.address_input) (Some "cod") (Some "cod")
    (Some (num_of_Z 0)) (Some (num_of_Z 5)) (Some "MT_1") (Some "paid")
    (Some "delivered").

Definition spoofed_cod_order : Order :=
  mkOrder 1%nat 8%nat [mkItem 21%nat (num_of_Z 1) (num_of_Z 100)]
    Sample.address cod (num_of_Z 0) (num_of_Z 5) (Some "MT_1") None
    not_applicable (Some gw_cod) processing.

Definition online_paid : Order :=
  set_gatewayTransactionId
    (set_paymentStatus (set_status Sample.online_created payment_issue) paid)
    (Some "T1").

(** An environment in which the salt key is not set. *)
Definition env_without_salt : Env :=
  mkEnv (Some "MERCHANT") None (Some "1")
    (Some "https://gateway.example/pg/v1/pay")
    (Some "https://shop.example/payment-status")
    (Some "https://shop.example/api/payments/phonepe-callback").

Definition failure_response : PhonePeResponse :=
  mkPhonePeResponse false (Some "Bad request") None.

(** A callback whose success flag is set but whose result code, payment
    state and response code are not the success combination. *)
Definition flagged_pending_callback : Callback :=
  mkCallback true (Some "PAYMENT_PENDING") (Some "Payment is pending")
    (Some (mkCallbackData (Some "MT_1") (Some "T3") (Some "PENDING")
             (Some "PENDING") (Some (num_of_Z 50000)))).

(** A failure callback that carries no gateway transaction id. *)
Definition bare_failure_callback : Callback :=
  mkCallback false (Some "PAYMENT_ERROR") (Some "Payment declined")
    (Some (mkCallbackData (Some "MT_1") None (Some "FAILED")
             (Some "PAYMENT_ERROR") None)).

(** [Sample.decode] extended by two more named payloads. *)
Definition decode (payload : string) : option Callback :=
  if (payload =? "flagged-pending")%string
  then Some flagged_pending_callback
  else if (payload =? "declined-bare")%string
  then Some bare_failure_callback
  else Sample.decode payload.

(** The spoofed COD order after a success callback of 50000 was saved. *)
Definition spoofed_cod_after_callback : Order :=
  mkOrder 1%nat 8%nat [mkItem 21%nat (num_of_Z 1) (num_of_Z 100)]
    Sample.address cod (num_of_Z 0) (num_of_Z 5) (Some "MT_1") (Some "T1")
    not_applicable (Some gw_cod) payment_issue.

End Fixture.

(* ================================================================== *)
(** ** Test vectors *)
(* ================================================================== *)

Example sha256_abc :
  Sha256.sha256_hex "abc"
  = "ba7816bf8f01cfea414140de5dae2223b00361a396177a9cb410ff61f20015ad".
Proof. vm_compute. reflexivity. Qed.

Example sha256_empty :
  Sha256.sha256_hex ""
  = "e3b0c44298fc1c149afbf4c8996fb92427ae41e4649b934ca495991b7852b855".
Proof. vm_compute. reflexivity. Qed.

Example sha256_two_blocks :
  Sha256.sha256_hex
    "abcdbcdecdefdefgefghfghighijhijkijkljklmklmnlmnomnopnopq"
  = "248d6a61d20638b8e5c026930c3e6039a33ce45964ff2167f6ecedd419db06c1".
Proof. vm_compute. reflexivity. Qed.

Example calculateChecksum_abc :
  calculateChecksum "abc" "key" "1"
  = "fe7861fe50f31c1d7e913613597e7cc9d1537a5b7378812702ce3997f2b4c75c###1".
Proof. vm_compute. reflexivity. Qed.

Example amount_50000_is_500 :
  num_strict_eq (js_div_100 (Some (num_of_Z 50000))) (num_of_Z 500) = true.
Proof. vm_compute. reflexivity. Qed.

Example amount_40000_is_not_500 :
  num_strict_neq (js_div_100 (Some (num_of_Z 40000))) (num_of_Z 500) = true.
Proof. vm_compute. reflexivity. Qed.

(* ================================================================== *)
(** ** Checksum codec *)
(* ================================================================== *)

Lemma verifyChecksum_spec (payload c saltKey saltIndex : string) :
  verifyChecksum payload c saltKey saltIndex = true
  <-> c = expectedChecksum_literal.
Proof.
  unfold verifyChecksum. rewrite String.eqb_eq. split; congruence.
Qed.

Lemma hex_digit_not_angle (n : Z) :
  Ascii.eqb "<"%char (Sha256.hex_digit n) = false.
Proof.
  unfold Sha256.hex_digit.
  destruct n as [|p|p]; try reflexivity.
  do 5 (try (destruct p as [p|p|]; try reflexivity)).
Qed.

Lemma callback_checksum_not_literal (payload saltKey saltIndex : string) :
  (expectedChecksum_literal =? callback_checksum payload saltKey saltIndex)
    %string = false.
Proof.
  unfold callback_checksum, Sha256.sha256_hex, Sha256.hex_of_regs.
  set (r := Sha256.digest _).
  unfold Sha256.hex_word at 1. unfold Sha256.nibble at 1.
  cbn [String.append expectedChecksum_literal String.eqb].
  rewrite hex_digit_not_angle. reflexivity.
Qed.

(** C1 (defect).  The comparison string of [verifyChecksum] is a fixed text
    in which neither the digest nor the salt index is substituted, so the
    checksum built by the callback-mode formula is rejected for every
    payload, salt key and salt index, while the fixed text itself is
    accepted whatever the payload: the result does not depend on the
    payload, the salt key or the salt index at all. *)
Theorem C1_verifyChecksum_rejects_formula_checksum :
  callback_checksum "abc" "key" "1"
  = "afcb12512ff218c850c8672f2f984f34d86f7739c5f4bee205442eb5a6ad6fff###1"
  /\ verifyChecksum "abc" (callback_checksum "abc" "key" "1") "key" "1"
     = false
  /\ (forall payload saltKey saltIndex,
         verifyChecksum payload (callback_checksum payload saltKey saltIndex)
           saltKey saltIndex = false)
  /\ (forall payload saltKey saltIndex,
         verifyChecksum payload expectedChecksum_literal saltKey saltIndex
         = true)
  /\ (forall payload payload' c saltKey saltKey' saltIndex saltIndex',
         verifyChecksum payload c saltKey saltIndex
         = verifyChecksum payload' c saltKey' saltIndex').
Proof.
  split; [vm_compute; reflexivity|].
  split; [vm_compute; reflexivity|].
  split; [|split]; intros.
  - unfold verifyChecksum. apply callback_checksum_not_literal.
  - apply verifyChecksum_spec. reflexivity.
  - reflexivity.
Qed.

(* ================================================================== *)
(** ** The order model *)
(* ================================================================== *)

Section ModelFacts.

Lemma pre_save_id b o : _id (pre_save b o) = _id o.
Proof. unfold pre_save; destruct (paymentMethod o), b; reflexivity. Qed.

Lemma pre_save_userId b o : userId (pre_save b o) = userId o.
Proof. unfold pre_save; destruct (paymentMethod o), b; reflexivity. Qed.

Lemma pre_save_paymentMethod b o :
  paymentMethod (pre_save b o) = paymentMethod o.
Proof.
  unfold pre_save; destruct (paymentMethod o) eqn:E, b; cbn; congruence.
Qed.

Lemma pre_save_mtid b o :
  merchantTransactionId (pre_save b o) = merchantTransactionId o.
Proof. unfold pre_save; destruct (paymentMethod o), b; reflexivity. Qed.

Lemma pre_save_total b o : total (pre_save b o) = total o.
Proof. unfold pre_save; destruct (paymentMethod o), b; reflexivity. Qed.

(** On an online order that is not new the hook changes nothing. *)
Lemma pre_save_online o :
  paymentMethod o = online -> pre_save false o = o.
Proof. unfold pre_save; intros ->; reflexivity. Qed.

(** The state the hook leaves on a new document. *)
Lemma pre_save_new o :
  match paymentMethod o with
  | cod =>
      paymentStatus (pre_save true o) = not_applicable
      /\ status (pre_save true o) = processing
  | online =>
      paymentStatus (pre_save true o) = pending
      /\ status (pre_save true o) = payment_pending
  end.
Proof. unfold pre_save; destruct (paymentMethod o); split; reflexivity. Qed.

Lemma cast_number_inv x y : cast_number x = Some y -> y = x.
Proof. unfold cast_number; destruct (isNaN x); congruence. Qed.

(** What [new_document] copies from the data it is given. *)
Lemma new_document_fields id data o :
  new_document id data = Some o ->
  _id o = id
  /\ d_userId data = Some (userId o)
  /\ d_total data = Some (total o)
  /\ merchantTransactionId o = d_merchantTransactionId data
  /\ (forall s, d_paymentMethod data = Some s ->
                enum_paymentMethod s = Some (paymentMethod o))
  /\ gatewayTransactionId o = None.
Proof.
  unfold new_document. intros H.
  repeat match type of H with
         | context [match ?x with _ => _ end] =>
             destruct x eqn:?; try discriminate
         end.
  inversion H; subst; clear H; cbn.
  repeat split; try assumption.
  - destruct (d_total data) as [t|]; [|discriminate].
    f_equal. symmetry. now apply cast_number_inv.
  - intros s' Hs'. now rewrite Hs' in *.
Qed.

Lemma fold_max_ge (l : list nat) (x : nat) :
  In x l -> (x <= fold_right Nat.max O l)%nat.
Proof.
  induction l as [|y l IH]; cbn; [tauto|].
  intros [->|Hin]; [lia|]. specialize (IH Hin). lia.
Qed.

Lemma fresh_id_fresh (db : Store) (o : Order) :
  In o db -> Nat.eqb (_id o) (fresh_id db) = false.
Proof.
  intros Hin. apply Nat.eqb_neq. unfold fresh_id.
  assert (_id o <= fold_right Nat.max O (map _id db))%nat;
    [apply fold_max_ge, in_map, Hin | lia].
Qed.

Lemma find_app_fresh (f : Order -> bool) (db : Store) (o : Order) :
  (forall d, In d db -> f d = false) -> f o = true ->
  find f (db ++ [o]) = Some o.
Proof.
  induction db as [|d db IH]; cbn; intros Hall Ho.
  - now rewrite Ho.
  - rewrite (Hall d (or_introl eq_refl)). apply IH; auto.
Qed.

(** A created order is stored last, and is what [findById] returns for
    its identifier. *)
Lemma Order_create_inv data db o db' :
  Order_create data db = Ok (o, db') ->
  exists doc,
    new_document (fresh_id db) data = Some doc
    /\ o = pre_save true doc
    /\ db' = (db ++ [o])%list
    /\ Order_findById (_id o) db' = Some o.
Proof.
  unfold Order_create. destruct (new_document _ data) as [doc|] eqn:Hdoc;
    [|discriminate].
  intros H; inversion H; subst; clear H.
  exists doc. repeat split; auto.
  apply new_document_fields in Hdoc as (Hid & _).
  unfold Order_findById. apply find_app_fresh.
  - intros d Hd. rewrite pre_save_id, Hid. now apply fresh_id_fresh.
  - apply Nat.eqb_refl.
Qed.

Lemma in_update_by_id id f db o :
  In o (update_by_id id f db) ->
  In o db \/ exists d, In d db /\ _id d = id /\ o = f d.
Proof.
  unfold update_by_id. rewrite in_map_iff. intros (d & Hd & Hin).
  destruct (Nat.eqb (_id d) id) eqn:E.
  - right. exists d. apply Nat.eqb_eq in E. auto.
  - left. now subst.
Qed.

End ModelFacts.


(* ================================================================== *)
(** ** The callback handler: verification *)
(* ================================================================== *)

(** C4.  A callback whose signature header is missing (absent or empty), or
    whose signature [verifyChecksum] rejects, is answered with status 400:
    the reply is fixed by the request alone, whatever the payload decodes
    to and whatever the store holds, the store is left as it is and no
    notification is requested. *)
Theorem C4_unverified_callback_rejected (env : Env) (req : CallbackRequest) :
  truthy_opt_str (x_verify req) = false
  \/ verifyChecksum (js_string (response req)) (js_string (x_verify req))
       (js_string (PHONEPE_SALT_KEY env))
       (js_string (PHONEPE_SALT_INDEX env)) = false ->
  exists text,
    forall (decode : string -> option Callback) (db : Store),
      callback_until_save decode env req db = inl (SendText 400 text)
      /\ phonepe_callback decode env req db = (SendText 400 text, db, []).
Proof.
  intros H.
  unfold phonepe_callback, callback_until_save.
  destruct (truthy_opt_str (response req)); cbn [negb].
  - destruct (truthy_opt_str (x_verify req)); cbn [negb].
    + destruct H as [H|H]; [discriminate|]. rewrite H. cbn [negb].
      eexists; intros; split; reflexivity.
    + eexists; intros; split; reflexivity.
  - eexists; intros; split; reflexivity.
Qed.

(* ================================================================== *)
(** ** The callback handler: reconciliation *)
(* ================================================================== *)

Section Reconciliation.

Variable decode : string -> option Callback.
Variable env : Env.

Lemma has_mtid_iff m o :
  has_mtid m o = true <-> merchantTransactionId o = Some m.
Proof.
  unfold has_mtid, opt_str_is. destruct (merchantTransactionId o) as [s|].
  - rewrite String.eqb_eq. split; congruence.
  - split; discriminate.
Qed.

(** A verified callback reaches the lookup of step 4. *)
Lemma verified_reaches_lookup req cb m db :
  verified_callback decode env req cb m ->
  callback_until_save decode env req db
  = match Order_findOne (has_mtid m) db with
    | None => inl (SendText 200 "Order not found, acknowledged.")
    | Some order =>
        match paymentStatus order with
        | paid | failed => inl (SendText 200 "Already processed.")
        | _ => inr (classify cb order)
        end
    end.
Proof.
  intros (payload & header & Hp & Hpt & Hh & Hht & Hv & Hd & Hm & Hmt).
  unfold callback_until_save.
  rewrite Hp, Hh. cbn [truthy_opt_str js_string]. rewrite Hpt, Hht.
  cbn [negb]. rewrite Hv. cbn [negb]. rewrite Hd, Hm.
  cbn [truthy_opt_str js_string]. rewrite Hmt. reflexivity.
Qed.

(** The assignments of step 6, field by field. *)
Lemma classify_fields cb o :
  let o' := saved_order (classify cb o) in
  _id o' = _id o
  /\ userId o' = userId o
  /\ paymentMethod o' = paymentMethod o
  /\ merchantTransactionId o' = merchantTransactionId o
  /\ total o' = total o
  /\ paymentStatus o' = callback_paymentStatus cb
  /\ status o' = callback_status cb (total o)
  /\ gatewayTransactionId o' = data_field cb_transactionId (cb_data cb)
  /\ classify cb o = AwaitSave o' (is_payment_success cb).
Proof.
  unfold classify, callback_paymentStatus, callback_status, num_strict_neq,
    num_strict_eq.
  destruct (is_payment_success cb); cbn.
  - destruct (SFeqb _ (total o)); cbn; repeat split; reflexivity.
  - repeat split; reflexivity.
Qed.

(** After [save], the lookup by merchant transaction id returns the saved
    document. *)
Lemma findOne_after_save m db o o' :
  Order_findOne (has_mtid m) db = Some o ->
  _id o' = _id o ->
  merchantTransactionId o' = Some m ->
  Order_findOne (has_mtid m) (Order_save o' db) = Some (pre_save false o').
Proof.
  intros Hfind Hid Hm.
  assert (Hsaved : has_mtid m (pre_save false o') = true)
    by now apply has_mtid_iff; rewrite pre_save_mtid.
  unfold Order_findOne, Order_save, update_by_id in *.
  induction db as [|d db IH]; cbn in *; [discriminate|].
  destruct (Nat.eqb (_id d) (_id o')) eqn:Eid.
  - now rewrite Hsaved.
  - destruct (has_mtid m d) eqn:Ed.
    + inversion Hfind; subst. rewrite Hid, Nat.eqb_refl in Eid. discriminate.
    + now apply IH.
Qed.

Lemma findById_after_save db o o' :
  In o db -> _id o' = _id o ->
  Order_findById (_id o') (Order_save o' db) = Some (pre_save false o').
Proof.
  intros Hin Hid. unfold Order_findById, Order_save, update_by_id.
  induction db as [|d db IH]; cbn in *; [tauto|].
  destruct (Nat.eqb (_id d) (_id o')) eqn:Eid.
  - now rewrite pre_save_id, Nat.eqb_refl.
  - rewrite Eid. destruct Hin as [->|Hin]; [|now apply IH].
    rewrite Hid, Nat.eqb_refl in Eid. discriminate.
Qed.

(** The whole run of the handler on an order that is neither paid nor
    failed. *)
Lemma callback_on_open_order req cb m db o :
  verified_callback decode env req cb m ->
  Order_findOne (has_mtid m) db = Some o ->
  paymentStatus o <> paid -> paymentStatus o <> failed ->
  let o' := saved_order (classify cb o) in
  callback_until_save decode env req db = inr (classify cb o)
  /\ phonepe_callback decode env req db
     = (SendText 200 "Callback processed successfully.",
        Order_save o' db,
        if is_payment_success cb then order_emails (pre_save false o')
        else [])
  /\ Order_findOne (has_mtid m) (Order_save o' db)
     = Some (pre_save false o').
Proof.
  intros Hv Hfind Hnp Hnf o'.
  assert (Hread : callback_until_save decode env req db
                  = inr (classify cb o)).
  { rewrite (verified_reaches_lookup _ _ _ _ Hv), Hfind.
    destruct (paymentStatus o); congruence. }
  destruct (classify_fields cb o)
    as (Hid & _ & _ & Hmt & _ & _ & _ & _ & Hcl).
  fold o' in Hid, Hmt, Hcl.
  destruct (find_some _ _ Hfind) as [Hin Hhas].
  apply has_mtid_iff in Hhas.
  split; [exact Hread|]. split.
  - unfold phonepe_callback. rewrite Hread, Hcl. cbn [callback_after_save].
    rewrite (findById_after_save db o o' Hin Hid).
    reflexivity.
  - apply (findOne_after_save m db o o' Hfind Hid). congruence.
Qed.

(** The gate of step 5. *)
Lemma callback_on_finalized_order req cb m db o :
  verified_callback decode env req cb m ->
  Order_findOne (has_mtid m) db = Some o ->
  paymentStatus o = paid \/ paymentStatus o = failed ->
  callback_until_save decode env req db
  = inl (SendText 200 "Already processed.").
Proof.
  intros Hv Hfind Hps.
  rewrite (verified_reaches_lookup _ _ _ _ Hv), Hfind.
  destruct Hps as [-> | ->]; reflexivity.
Qed.

Lemma store_ok_found m db o :
  store_ok db -> Order_findOne (has_mtid m) db = Some o ->
  paymentMethod o = online.
Proof.
  intros Hok Hfind. destruct (find_some _ _ Hfind) as [Hin Hhas].
  apply has_mtid_iff in Hhas. apply (Hok o Hin). congruence.
Qed.

End Reconciliation.

Lemma opt_str_is_iff x lit : opt_str_is x lit = true <-> x = Some lit.
Proof.
  unfold opt_str_is. destruct x as [s|]; [|split; discriminate].
  rewrite String.eqb_eq. split; congruence.
Qed.

(** The test of step 6 holds exactly on the success combination. *)
Lemma is_payment_success_iff cb :
  is_payment_success cb = true <-> success_combination cb.
Proof.
  unfold is_payment_success, success_combination.
  rewrite !andb_true_iff, !opt_str_is_iff. tauto.
Qed.

(** Only online orders are pending: the hook gives a COD order the payment
    status [not_applicable] on every save. *)
Lemma pre_save_pending_online isNew o :
  paymentStatus (pre_save isNew o) = pending -> paymentMethod o = online.
Proof.
  unfold pre_save. destruct (paymentMethod o); [|reflexivity].
  destruct isNew; cbn; discriminate.
Qed.

(** C3.  A verified callback on an order that is pending (an online order,
    see [pre_save_pending_online]) saves that order, changing only its
    payment status, status and gateway transaction id.
    When the success flag is true and result code, payment state and
    response code are [PAYMENT_SUCCESS], [COMPLETED] and [SUCCESS], the
    order becomes [paid], with status [processing] when the amount divided
    by 100 is equal to the order total and [payment_issue] when it is not
    (or when there is no amount); in every other case it becomes [failed]
    with status [payment_failed].  In both cases the gateway transaction
    id of the callback (absent when the callback has none) is stored. *)
Theorem C3_pending_order_transition
  (decode : string -> option Callback) (env : Env) (req : CallbackRequest)
  (cb : Callback) (m : string) (db : Store) (o : Order) :
  verified_callback decode env req cb m ->
  Order_findOne (has_mtid m) db = Some o ->
  paymentMethod o = online ->
  paymentStatus o = pending ->
  exists o' emails,
    phonepe_callback decode env req db
    = (SendText 200 "Callback processed successfully.",
       update_by_id (_id o) (fun _ => o') db, emails)
    /\ Order_findOne (has_mtid m) (update_by_id (_id o) (fun _ => o') db)
       = Some o'
    /\ (_id o', userId o', items o', shippingAddress o', paymentMethod o',
        shippingCharge o', total o', merchantTransactionId o',
        paymentGateway o')
       = (_id o, userId o, items o, shippingAddress o, paymentMethod o,
          shippingCharge o, total o, merchantTransactionId o,
          paymentGateway o)
    /\ gatewayTransactionId o' = data_field cb_transactionId (cb_data cb)
    /\ (success_combination cb ->
        paymentStatus o' = paid
        /\ match data_field cb_amount (cb_data cb) with
           | Some amount =>
               (SFeqb (SFdiv 53 1024 amount
                         (binary_normalize 53 1024 100 0 false))
                  (total o) = true -> status o' = processing)
               /\ (SFeqb (SFdiv 53 1024 amount
                            (binary_normalize 53 1024 100 0 false))
                     (total o) = false -> status o' = payment_issue)
           | None => status o' = payment_issue
           end)
    /\ (~ success_combination cb ->
        paymentStatus o' = failed /\ status o' = payment_failed).
Proof.
  intros Hv Hfind Honline Hps.
  destruct (callback_on_open_order decode env req cb m db o Hv Hfind)
    as (_ & Hrun & Hfound); try congruence.
  destruct (classify_fields cb o)
    as (Hid & _ & Hpm & _ & _ & Hp & Hs & Hg & _).
  assert (Hfixed :
    let o' := saved_order (classify cb o) in
    (_id o', userId o', items o', shippingAddress o', paymentMethod o',
     shippingCharge o', total o', merchantTransactionId o',
     paymentGateway o')
    = (_id o, userId o, items o, shippingAddress o, paymentMethod o,
       shippingCharge o, total o, merchantTransactionId o,
       paymentGateway o)).
  { unfold classify, num_strict_neq.
    destruct (is_payment_success cb); cbn; [|reflexivity].
    destruct (SFeqb _ (total o)); reflexivity. }
  set (o' := saved_order (classify cb o)) in *.
  assert (Hhook : pre_save false o' = o')
    by (apply pre_save_online; congruence).
  rewrite Hhook in Hrun, Hfound.
  unfold Order_save in Hrun, Hfound. rewrite Hhook, Hid in Hrun, Hfound.
  exists o'. eexists. split; [exact Hrun|]. split; [exact Hfound|].
  split; [exact Hfixed|]. split; [exact Hg|].
  rewrite Hp, Hs. unfold callback_paymentStatus, callback_status.
  split.
  - intros Hsucc. apply is_payment_success_iff in Hsucc. rewrite Hsucc.
    split; [reflexivity|].
    destruct (data_field cb_amount (cb_data cb)) as [amount|];
      [|reflexivity].
    unfold num_strict_eq, js_div_100, num_div, num_of_Z.
    split; intros ->; reflexivity.
  - intros Hfail. destruct (is_payment_success cb) eqn:E.
    + apply is_payment_success_iff in E. contradiction.
    + split; reflexivity.
Qed.


(** A handler that reaches [order.save()] was given a verified callback
    for an order that is neither paid nor failed. *)
Lemma until_save_inr_inv
  (decode : string -> option Callback) (env : Env) (req : CallbackRequest)
  (db : Store) (s : Suspended) :
  callback_until_save decode env req db = inr s ->
  exists cb m o,
    verified_callback decode env req cb m
    /\ Order_findOne (has_mtid m) db = Some o
    /\ paymentStatus o <> paid /\ paymentStatus o <> failed
    /\ s = classify cb o.
Proof.
  unfold callback_until_save. intros H.
  destruct (response req) as [payload|] eqn:Hp;
    cbn [truthy_opt_str js_string negb] in H; [|discriminate].
  destruct (truthy_str payload) eqn:Hpt; cbn [negb] in H; [|discriminate].
  destruct (x_verify req) as [header|] eqn:Hh;
    cbn [truthy_opt_str js_string negb] in H; [|discriminate].
  destruct (truthy_str header) eqn:Hht; cbn [negb] in H; [|discriminate].
  destruct (verifyChecksum payload header _ _) eqn:Hv;
    cbn [negb] in H; [|discriminate].
  destruct (decode payload) as [cb|] eqn:Hd; [|discriminate].
  destruct (data_field cb_merchantTransactionId (cb_data cb)) as [m|] eqn:Hm;
    cbn [truthy_opt_str js_string negb] in H; [|discriminate].
  destruct (truthy_str m) eqn:Hmt; cbn [negb] in H; [|discriminate].
  destruct (Order_findOne (has_mtid m) db) as [o|] eqn:Hf; [|discriminate].
  exists cb, m, o.
  assert (verified_callback decode env req cb m)
    by (exists payload, header; repeat split; assumption).
  destruct (paymentStatus o) eqn:Hps; try discriminate;
    inversion H; repeat split; auto; congruence.
Qed.



(* ================================================================== *)
(** ** The store invariant *)
(* ================================================================== *)

Section StoreInvariant.

Lemma store_ok_nil : store_ok [].
Proof. intros o []. Qed.

Lemma store_ok_app db o :
  store_ok db ->
  (merchantTransactionId o <> None -> paymentMethod o = online) ->
  store_ok (db ++ [o])%list.
Proof.
  intros Hok Ho d Hin. apply in_app_or in Hin as [Hin|[<-|[]]]; auto.
Qed.

Lemma store_ok_update id f db :
  store_ok db ->
  (forall d, In d db -> _id d = id ->
             merchantTransactionId (f d) <> None ->
             paymentMethod (f d) = online) ->
  store_ok (update_by_id id f db).
Proof.
  intros Hok Hf o Hin.
  apply in_update_by_id in Hin as [Hin|(d & Hd & Hid & ->)]; auto.
Qed.

Lemma store_ok_create data db o db' :
  store_ok db -> Order_create data db = Ok (o, db') ->
  (d_merchantTransactionId data <> None ->
   d_paymentMethod data = Some "online") ->
  store_ok db'.
Proof.
  intros Hok Hc Hdata.
  apply Order_create_inv in Hc as (doc & Hdoc & -> & -> & _).
  apply new_document_fields in Hdoc as (_ & _ & _ & Hm & Hpm & _).
  apply store_ok_app; [assumption|].
  rewrite pre_save_mtid, pre_save_paymentMethod, Hm. intros Hsome.
  specialize (Hpm _ (Hdata Hsome)). cbn in Hpm. congruence.
Qed.

Lemma store_ok_create_cod_order user body db :
  store_ok db -> store_ok (outcome_store (create_cod_order user body db)).
Proof.
  intros Hok. unfold create_cod_order.
  destruct (negb (opt_str_is (b_paymentMethod body) "cod")); [assumption|].
  match goal with |- context [if ?c then _ else _] => destruct c end;
    [assumption|].
  destruct (Order_create _ db) as [[o db']|e] eqn:Hc; [|assumption].
  assert (store_ok db')
    by (eapply store_ok_create; eauto; cbn; congruence).
  destruct (Order_findById (_id o) db'); assumption.
Qed.

Lemma store_ok_initiate_payment env user body m gateway db :
  store_ok db ->
  store_ok (outcome_store (initiate_payment env user body m gateway db)).
Proof.
  intros Hok. unfold initiate_payment.
  destruct (negb (opt_str_is (b_paymentMethod body) "online"));
    [assumption|].
  match goal with |- context [if ?c then _ else _] => destruct c end;
    [assumption|].
  destruct (negb (env_configured env)); [assumption|].
  destruct (Order_create _ db) as [[o db']|e] eqn:Hc; [|assumption].
  assert (Hok' : store_ok db') by (eapply store_ok_create; eauto).
  destruct gateway as [data|st msg errmsg]; [|assumption].
  destruct (resp_success data && _); [assumption|].
  cbn. apply store_ok_update; [assumption|].
  intros d Hd _ Hm. apply (Hok' d Hd). exact Hm.
Qed.

Lemma store_ok_phonepe_callback decode env req db :
  store_ok db ->
  store_ok (outcome_store (phonepe_callback decode env req db)).
Proof.
  intros Hok. unfold phonepe_callback.
  destruct (callback_until_save decode env req db) as [r|s] eqn:Hread;
    [assumption|].
  destruct (until_save_inr_inv _ _ _ _ _ Hread)
    as (cb & m & o & _ & Hfind & _ & _ & ->).
  destruct (classify_fields cb o) as (_ & _ & Hpm & Hm & _ & _ & _ & _ & ->).
  cbn. apply store_ok_update; [assumption|].
  intros d _ _. rewrite pre_save_mtid, pre_save_paymentMethod, Hpm, Hm.
  destruct (find_some _ _ Hfind) as [Hin _]. apply (Hok o Hin).
Qed.

Lemma store_ok_update_order_status id new_status db :
  store_ok db -> store_ok (snd (update_order_status id new_status db)).
Proof.
  intros Hok. unfold update_order_status.
  destruct new_status as [s|]; [|assumption].
  destruct (negb (truthy_str s)); [assumption|].
  destruct (enum_status s) as [st|]; [|assumption].
  assert (store_ok (Order_findByIdAndUpdate id (fun o => set_status o st) db)).
  { apply store_ok_update; [assumption|]. intros d Hd _. apply (Hok d Hd). }
  destruct (Order_findById id _); assumption.
Qed.

(** Every store the routes can build satisfies the invariant. *)
Lemma reachable_store_ok db : Reachable db -> store_ok db.
Proof.
  induction 1.
  - apply store_ok_nil.
  - now apply store_ok_create_cod_order.
  - now apply store_ok_initiate_payment.
  - now apply store_ok_phonepe_callback.
  - now apply store_ok_update_order_status.
Qed.

End StoreInvariant.

(* ================================================================== *)
(** ** Order creation *)
(* ================================================================== *)

Section Creation.

(** An accepted COD request: what was checked and what was stored. *)
Lemma create_cod_order_accepted user body db o db' n :
  create_cod_order user body db = (SendOrder 201 o, db', n) ->
  db' = (db ++ [o])%list
  /\ n = order_emails o
  /\ paymentMethod o = cod
  /\ paymentStatus o = not_applicable
  /\ status o = processing
  /\ merchantTransactionId o = None
  /\ userId o = user_id user
  /\ b_total body = Some (total o)
  /\ truthy_num (total o) = true.
Proof.
  unfold create_cod_order.
  destruct (negb (opt_str_is (b_paymentMethod body) "cod"));
    [discriminate|].
  cbn [d_shippingAddress d_total d_items].
  destruct (is_some (b_shippingAddress body)); [|discriminate].
  destruct (truthy_opt_num (b_total body)) eqn:Htot; [|discriminate].
  destruct (is_some (b_items body)); [|discriminate].
  destruct (items_empty (b_items body)); [discriminate|].
  cbn [negb orb].
  destruct (Order_create _ db) as [[o1 db1]|e] eqn:Hc; [|discriminate].
  apply Order_create_inv in Hc as (doc & Hdoc & -> & -> & Hfind).
  rewrite Hfind. intros H; inversion H; subst; clear H.
  apply new_document_fields in Hdoc as (_ & Hu & Ht & Hm & Hpm & _).
  cbn in Hu, Ht, Hm, Hpm. specialize (Hpm _ eq_refl). cbn in Hpm.
  assert (Hcod : paymentMethod doc = cod) by congruence.
  pose proof (pre_save_new doc) as Hnew. rewrite Hcod in Hnew.
  destruct Hnew as [Hps Hst].
  rewrite pre_save_paymentMethod, pre_save_mtid, pre_save_userId,
    pre_save_total.
  repeat split; try assumption; try congruence.
  rewrite Ht in Htot. exact Htot.
Qed.

(** A payment initiation either stops before creating anything, or creates
    a pending online order and then follows the gateway outcome. *)
Lemma initiate_payment_inv env user body m gateway db r db' n :
  initiate_payment env user body m gateway db = (r, db', n) ->
  (db' = db /\ n = [] /\ exists e, r = Next e)
  \/ exists o,
       paymentMethod o = online
       /\ paymentStatus o = pending
       /\ status o = payment_pending
       /\ merchantTransactionId o = Some m
       /\ userId o = user_id user
       /\ b_total body = Some (total o)
       /\ truthy_num (total o) = true
       /\ Order_findById (_id o) (db ++ [o])%list = Some o
       /\ n = []
       /\ match gateway with
          | Resolved data =>
              if resp_success data && truthy_opt_str (resp_redirect_url data)
              then r = SendRedirect (js_string (resp_redirect_url data))
                   /\ db' = (db ++ [o])%list
              else r = Next (AppError
                          (or_default (resp_message data)
                             "Failed to initiate payment with PhonePe.") 500)
                   /\ db' = update_by_id (_id o) mark_payment_failed
                              (db ++ [o])%list
          | Rejected st msg errmsg =>
              r = Next (AppError
                     ("PhonePe API Error: " ++ or_default msg errmsg)
                     (status_or_500 st))
              /\ db' = (db ++ [o])%list
          end.
Proof.
  unfold initiate_payment.
  destruct (negb (opt_str_is (b_paymentMethod body) "online"));
    [intros H; inversion H; left; eauto|].
  destruct (is_some (b_shippingAddress body));
    [|intros H; inversion H; left; eauto].
  destruct (truthy_opt_num (b_total body)) eqn:Htot;
    [|intros H; inversion H; left; eauto].
  destruct (is_some (b_items body)); [|intros H; inversion H; left; eauto].
  destruct (items_empty (b_items body));
    [intros H; inversion H; left; eauto|].
  cbn [negb orb].
  match goal with |- context [if negb ?c then _ else _] => destruct c end;
    [|intros H; inversion H; left; eauto].
  cbn [negb].
  destruct (negb (env_configured env));
    [intros H; inversion H; left; eauto|].
  destruct (Order_create _ db) as [[o1 db1]|e] eqn:Hc;
    [|intros H; inversion H; left; eauto].
  apply Order_create_inv in Hc as (doc & Hdoc & -> & -> & Hfind).
  apply new_document_fields in Hdoc as (_ & Hu & Ht & Hm & Hpm & _).
  cbn in Hu, Ht, Hm, Hpm. specialize (Hpm _ eq_refl). cbn in Hpm.
  assert (Honline : paymentMethod doc = online) by congruence.
  pose proof (pre_save_new doc) as Hnew. rewrite Honline in Hnew.
  destruct Hnew as [Hps Hst].
  intros H. right. exists (pre_save true doc).
  rewrite pre_save_paymentMethod, pre_save_mtid, pre_save_userId,
    pre_save_total.
  repeat (split; [first [assumption | congruence]|]).
  split; [rewrite Ht in Htot; exact Htot|].
  split; [exact Hfind|].
  destruct gateway as [data|st msg errmsg].
  - destruct (resp_success data && truthy_opt_str (resp_redirect_url data));
      inversion H; auto.
  - inversion H; auto.
Qed.

End Creation.

(** C6.  An order created with payment method [cod] is stored with
    [paymentStatus = not_applicable] and [status = processing], one created
    with [online] with [pending] and [payment_pending], whatever
    [paymentStatus] or [status] the creation data or the request body
    carries.  This holds of [Order.create] (through the pre-save hook) and
    of both creation routes. *)
Theorem C6_initial_payment_state :
  (forall data db o db',
      Order_create data db = Ok (o, db') ->
      db' = (db ++ [o])%list
      /\ match paymentMethod o with
         | cod => paymentStatus o = not_applicable /\ status o = processing
         | online => paymentStatus o = pending /\ status o = payment_pending
         end)
  /\ (forall user body db o db' n,
         create_cod_order user body db = (SendOrder 201 o, db', n) ->
         db' = (db ++ [o])%list
         /\ paymentMethod o = cod
         /\ paymentStatus o = not_applicable /\ status o = processing)
  /\ (forall env user body m gateway db url db' n,
         initiate_payment env user body m gateway db
         = (SendRedirect url, db', n) ->
         exists o,
           db' = (db ++ [o])%list
           /\ paymentMethod o = online
           /\ merchantTransactionId o = Some m
           /\ paymentStatus o = pending /\ status o = payment_pending).
Proof.
  split; [|split].
  - intros data db o db' Hc.
    apply Order_create_inv in Hc as (doc & _ & -> & -> & _).
    split; [reflexivity|].
    rewrite pre_save_paymentMethod. apply pre_save_new.
  - intros user body db o db' n H.
    apply create_cod_order_accepted in H. tauto.
  - intros env user body m gateway db url db' n H.
    apply initiate_payment_inv in H
      as [(_ & _ & e & He)|(o & Hpm & Hps & Hst & Hm & _ & _ & _ & _ & _ & Hg)];
      [discriminate|].
    exists o. destruct gateway as [data|st msg errmsg].
    + destruct (resp_success data && _); destruct Hg as [Hr ->];
        [auto 6 | discriminate].
    + destruct Hg as [Hr _]. discriminate.
Qed.

Lemma legacy_create_order_accepted user body db o db' n :
  legacy_create_order user body db = (SendOrder 201 o, db', n) ->
  Order_create (legacy_order_data user body) db = Ok (o, db').
Proof.
  unfold legacy_create_order.
  destruct (Order_create _ db) as [[o1 db1]|e]; [|discriminate].
  intros H; inversion H; reflexivity.
Qed.

(** C5 (as the code has it).  No creation path compares the total with
    the items: an order accepted by [Order.create], and so by the COD
    route, the payment initiation and the earlier creation route, is
    stored with the total the request supplied. *)
Theorem C5_total_stored_as_supplied :
  (forall data db o db',
      Order_create data db = Ok (o, db') ->
      db' = (db ++ [o])%list /\ d_total data = Some (total o))
  /\ (forall user body db o db' n,
         create_cod_order user body db = (SendOrder 201 o, db', n) ->
         db' = (db ++ [o])%list /\ b_total body = Some (total o))
  /\ (forall env user body m gateway db url db' n,
         initiate_payment env user body m gateway db
         = (SendRedirect url, db', n) ->
         exists o,
           db' = (db ++ [o])%list /\ b_total body = Some (total o))
  /\ (forall user body db o db' n,
         legacy_create_order user body db = (SendOrder 201 o, db', n) ->
         db' = (db ++ [o])%list /\ d_total body = Some (total o)).
Proof.
  assert (Hcreate : forall data db o db',
             Order_create data db = Ok (o, db') ->
             db' = (db ++ [o])%list /\ d_total data = Some (total o)).
  { intros data db o db' Hc.
    apply Order_create_inv in Hc as (doc & Hdoc & -> & -> & _).
    apply new_document_fields in Hdoc as (_ & _ & Ht & _).
    rewrite pre_save_total. auto. }
  split; [exact Hcreate|]. split; [|split].
  - intros user body db o db' n H.
    apply create_cod_order_accepted in H. tauto.
  - intros env user body m gateway db url db' n H.
    apply initiate_payment_inv in H
      as [(_ & _ & e & He)|(o & _ & _ & _ & _ & _ & Ht & _ & _ & _ & Hg)];
      [discriminate|].
    exists o. destruct gateway as [data|st msg errmsg].
    + destruct (resp_success data && _); destruct Hg as [Hr ->];
        [auto | discriminate].
    + destruct Hg as [Hr _]. discriminate.
  - intros user body db o db' n H.
    apply legacy_create_order_accepted in H. apply Hcreate in H. exact H.
Qed.

(** C5 (counterexample).  A COD request for one item at 100 with no
    shipping charge and a total of 5 is accepted with status 201 and the
    order is stored with total 5. *)
Lemma C5_counterexample :
  create_cod_order Sample.alice Sample.cod_body []
  = (SendOrder 201 Sample.cod_created, [Sample.cod_created],
     order_emails Sample.cod_created)
  /\ total Sample.cod_created = num_of_Z 5
  /\ num_add (items_sum (items Sample.cod_created))
       (shippingCharge Sample.cod_created) = num_of_Z 100
  /\ total_matches_items Sample.cod_created = false.
Proof. repeat split; vm_compute; reflexivity. Qed.

(* ================================================================== *)
(** ** Payment initiation failures *)
(* ================================================================== *)

(** C7 (defect).  When the pay API answers with a non-2xx status, or the
    call fails without any response, [axios] rejects and the handler only
    forwards an error: the order it has just created stays [pending] and
    [payment_pending].  The same failure message delivered in a 2xx
    response takes the other branch, which marks the order [failed] and
    [payment_failed]. *)
Theorem C7_rejected_gateway_call_leaves_order_pending :
  initiate_payment Sample.env Sample.alice Sample.online_body "MT_1"
    (Rejected (Some 400) (Some "Bad request")
       "Request failed with status code 400") []
  = (Next (AppError "PhonePe API Error: Bad request" 400),
     [Sample.online_created], [])
  /\ initiate_payment Sample.env Sample.alice Sample.online_body "MT_1"
       (Rejected None None "connect ECONNREFUSED") []
     = (Next (AppError "PhonePe API Error: connect ECONNREFUSED" 500),
        [Sample.online_created], [])
  /\ paymentStatus Sample.online_created = pending
  /\ status Sample.online_created = payment_pending
  /\ initiate_payment Sample.env Sample.alice Sample.online_body "MT_1"
       (Resolved (mkPhonePeResponse false (Some "Bad request") None)) []
     = (Next (AppError "Bad request" 500),
        [mark_payment_failed Sample.online_created], []).
Proof. repeat split; vm_compute; reflexivity. Qed.

Lemma findById_update id f db :
  (forall d, _id (f d) = _id d) ->
  Order_findById id (update_by_id id f db)
  = option_map f (Order_findById id db).
Proof.
  intros Hf. unfold Order_findById, update_by_id.
  induction db as [|d db IH]; cbn; [reflexivity|].
  destruct (Nat.eqb (_id d) id) eqn:E.
  - now rewrite Hf, E.
  - now rewrite E.
Qed.

(** The two failures that arrive inside a 2xx response (explicit failure
    flag, missing redirect URL) do move the new order to [failed] and
    [payment_failed], and surface an error with status 500. *)
Lemma initiate_payment_explicit_failure env user body m data db r db' n :
  initiate_payment env user body m (Resolved data) db = (r, db', n) ->
  resp_success data && truthy_opt_str (resp_redirect_url data) = false ->
  (db' = db /\ exists e, r = Next e)
  \/ exists o,
       merchantTransactionId o = Some m
       /\ Order_findById (_id o) db' = Some (mark_payment_failed o)
       /\ paymentStatus (mark_payment_failed o) = failed
       /\ status (mark_payment_failed o) = payment_failed
       /\ reply_status r = Some 500.
Proof.
  intros H Hfail.
  apply initiate_payment_inv in H
    as [(-> & _ & He)|(o & _ & _ & _ & Hm & _ & _ & _ & Hfind & _ & Hg)];
    [left; auto|].
  right. exists o. rewrite Hfail in Hg. destruct Hg as [-> ->].
  rewrite findById_update, Hfind by reflexivity. auto.
Qed.

(* ================================================================== *)
(** ** Status polling *)
(* ================================================================== *)

Lemma status_query_iff mtid user o :
  status_query mtid user o = true
  <-> merchantTransactionId o = Some mtid /\ userId o = user_id user.
Proof.
  unfold status_query.
  rewrite andb_true_iff, has_mtid_iff, Nat.eqb_eq. tauto.
Qed.

(** C10.  The status route answers with an order id and payment status
    only for an order that carries the requested merchant transaction id
    and belongs to the requester; when every order with that transaction
    id belongs to someone else the answer is the 404 error.  The reply is
    computed from the selected fields [_id], [paymentStatus] and [status]
    alone. *)
Theorem C10_status_by_mtid_owner_only
  (user : User) (mtid : string) (db : Store) :
  (forall oid ps,
      order_status_by_mtid user mtid db = SendPaymentStatus oid ps ->
      exists o,
        In o db /\ _id o = oid /\ paymentStatus o = ps
        /\ userId o = user_id user
        /\ merchantTransactionId o = Some mtid)
  /\ (truthy_str mtid = true ->
      (forall o, In o db -> merchantTransactionId o = Some mtid ->
                 userId o <> user_id user) ->
      order_status_by_mtid user mtid db
      = Next (AppError "Order not found for this transaction ID." 404))
  /\ (forall db2,
         option_map select_status_fields
           (Order_findOne (status_query mtid user) db)
         = option_map select_status_fields
             (Order_findOne (status_query mtid user) db2) ->
         order_status_by_mtid user mtid db
         = order_status_by_mtid user mtid db2).
Proof.
  unfold order_status_by_mtid. split; [|split].
  - intros oid ps. destruct (negb (truthy_str mtid)); [discriminate|].
    destruct (Order_findOne (status_query mtid user) db) as [o|] eqn:Hfind;
      cbn; [|discriminate].
    intros H; inversion H; subst; clear H.
    destruct (find_some _ _ Hfind) as [Hin Hq].
    apply status_query_iff in Hq as [Hm Hu].
    exists o. auto.
  - intros -> Hothers. cbn [negb].
    destruct (Order_findOne (status_query mtid user) db) as [o|] eqn:Hfind;
      [|reflexivity].
    destruct (find_some _ _ Hfind) as [Hin Hq].
    apply status_query_iff in Hq as [Hm Hu].
    destruct (Hothers o Hin Hm Hu).
  - intros db2 ->. reflexivity.
Qed.

(* ================================================================== *)
(** ** Two deliveries for one transaction *)
(* ================================================================== *)



(* ================================================================== *)
(** ** The statements at the sample data *)
(* ================================================================== *)

Ltac sample_store_ok :=
  let o := fresh "o" in
  intros o [<-|[]] _; reflexivity.

Ltac sample_verified :=
  eexists _, _; repeat split; reflexivity.

(** C4 at a request signed with the callback-mode formula, which
    [verifyChecksum] rejects. *)
Lemma C4_witness :
  exists text,
    forall (decode : string -> option Callback) (db : Store),
      callback_until_save decode Sample.env
        (Sample.signed_request "paid-50000") db = inl (SendText 400 text)
      /\ phonepe_callback decode Sample.env
           (Sample.signed_request "paid-50000") db
         = (SendText 400 text, db, []).
Proof.
  apply (C4_unverified_callback_rejected Sample.env
           (Sample.signed_request "paid-50000")).
  right. vm_compute. reflexivity.
Defined.

(** C3 on the pending order of 500.00: at the success callback with amount
    50000 (equal after the division by 100), at the one with amount 40000,
    and at a callback whose success flag is set but whose codes are not
    the success combination. *)
Lemma C3_witness :
  (exists o',
      Order_findOne (has_mtid "MT_1")
        (update_by_id 1%nat (fun _ => o') [Sample.pending_order]) = Some o'
      /\ gatewayTransactionId o' = Some "T1"
      /\ paymentStatus o' = paid /\ status o' = processing)
  /\ (exists o',
         Order_findOne (has_mtid "MT_1")
           (update_by_id 1%nat (fun _ => o') [Sample.pending_order])
         = Some o'
         /\ paymentStatus o' = paid /\ status o' = payment_issue)
  /\ (exists o',
         Order_findOne (has_mtid "MT_1")
           (update_by_id 1%nat (fun _ => o') [Sample.pending_order])
         = Some o'
         /\ paymentStatus o' = failed /\ status o' = payment_failed).
Proof.
  split; [|split].
  - destruct (C3_pending_order_transition Fixture.decode Sample.env
                (Sample.accepted_request "paid-50000")
                (Sample.success_callback (Some (num_of_Z 50000))) "MT_1"
                [Sample.pending_order] Sample.pending_order)
      as (o' & emails & _ & Hfind & _ & Hg & Hsucc & _).
    + sample_verified.
    + reflexivity.
    + reflexivity.
    + reflexivity.
    + destruct Hsucc as [Hp [Heq _]]; [repeat split; reflexivity|].
      exists o'. repeat split; try assumption.
      apply Heq. vm_compute. reflexivity.
  - destruct (C3_pending_order_transition Fixture.decode Sample.env
                (Sample.accepted_request "paid-40000")
                (Sample.success_callback (Some (num_of_Z 40000))) "MT_1"
                [Sample.pending_order] Sample.pending_order)
      as (o' & emails & _ & Hfind & _ & _ & Hsucc & _).
    + sample_verified.
    + reflexivity.
    + reflexivity.
    + reflexivity.
    + destruct Hsucc as [Hp [_ Hneq]]; [repeat split; reflexivity|].
      exists o'. repeat split; try assumption.
      apply Hneq. vm_compute. reflexivity.
  - destruct (C3_pending_order_transition Fixture.decode Sample.env
                (Sample.accepted_request "flagged-pending")
                Fixture.flagged_pending_callback "MT_1"
                [Sample.pending_order] Sample.pending_order)
      as (o' & emails & _ & Hfind & _ & _ & _ & Hfail).
    + sample_verified.
    + reflexivity.
    + reflexivity.
    + reflexivity.
    + destruct Hfail as [Hp Hst].
      * intros (_ & Hcode & _). discriminate Hcode.
      * exists o'. repeat split; assumption.
Defined.




(** C6 at creation data, a COD body and an online body that all carry
    [paymentStatus = paid] and [status = delivered]. *)
Lemma C6_witness :
  ([Sample.cod_created] = ([] ++ [Sample.cod_created])%list
   /\ paymentStatus Sample.cod_created = not_applicable
   /\ status Sample.cod_created = processing)
  /\ ([Sample.cod_created] = ([] ++ [Sample.cod_created])%list
      /\ paymentMethod Sample.cod_created = cod
      /\ paymentStatus Sample.cod_created = not_applicable
      /\ status Sample.cod_created = processing)
  /\ (exists o,
         [Sample.online_created] = ([] ++ [o])%list
         /\ paymentMethod o = online
         /\ merchantTransactionId o = Some "MT_1"
         /\ paymentStatus o = pending /\ status o = payment_pending).
Proof.
  split; [|split].
  - apply (proj1 C6_initial_payment_state Sample.cod_data []
             Sample.cod_created [Sample.cod_created]).
    vm_compute. reflexivity.
  - apply (proj1 (proj2 C6_initial_payment_state) Sample.alice
             Sample.cod_body [] Sample.cod_created [Sample.cod_created]
             (order_emails Sample.cod_created)).
    vm_compute. reflexivity.
  - apply (proj2 (proj2 C6_initial_payment_state) Sample.env Sample.alice
             Sample.online_body "MT_1" Sample.redirect_response
             [] "https://gateway.example/pay/1" [Sample.online_created] []).
    vm_compute. reflexivity.
Defined.

(** C5 at the creation data, the COD body, the online body and the body
    for the earlier route, none of whose totals is 1 x 100 + 0. *)
Lemma C5_witness :
  ([Sample.cod_created] = ([] ++ [Sample.cod_created])%list
   /\ d_total Sample.cod_data = Some (total Sample.cod_created))
  /\ ([Sample.cod_created] = ([] ++ [Sample.cod_created])%list
      /\ b_total Sample.cod_body = Some (total Sample.cod_created))
  /\ (exists o,
         [Sample.online_created] = ([] ++ [o])%list
         /\ b_total Sample.online_body = Some (total o))
  /\ ([Fixture.spoofed_cod_order] = ([] ++ [Fixture.spoofed_cod_order])%list
      /\ d_total Fixture.spoofed_cod_data
         = Some (total Fixture.spoofed_cod_order)).
Proof.
  split; [|split; [|split]].
  - apply (proj1 C5_total_stored_as_supplied Sample.cod_data []
             Sample.cod_created [Sample.cod_created]).
    vm_compute. reflexivity.
  - apply (proj1 (proj2 C5_total_stored_as_supplied) Sample.alice
             Sample.cod_body [] Sample.cod_created [Sample.cod_created]
             (order_emails Sample.cod_created)).
    vm_compute. reflexivity.
  - apply (proj1 (proj2 (proj2 C5_total_stored_as_supplied)) Sample.env
             Sample.alice Sample.online_body "MT_1" Sample.redirect_response
             [] "https://gateway.example/pay/1" [Sample.online_created] []).
    vm_compute. reflexivity.
  - apply (proj2 (proj2 (proj2 C5_total_stored_as_supplied)) Sample.alice
             Fixture.spoofed_cod_data [] Fixture.spoofed_cod_order
             [Fixture.spoofed_cod_order] []).
    vm_compute. reflexivity.
Defined.

(** C10 at the owner of the pending order, at another user, and at a
    second store with the same selected fields. *)
Lemma C10_witness :
  (exists o,
      In o [Sample.pending_order] /\ _id o = 1%nat
      /\ paymentStatus o = pending
      /\ userId o = user_id Sample.alice
      /\ merchantTransactionId o = Some "MT_1")
  /\ order_status_by_mtid Sample.bob "MT_1" [Sample.pending_order]
     = Next (AppError "Order not found for this transaction ID." 404)
  /\ order_status_by_mtid Sample.alice "MT_1" [Sample.pending_order]
     = order_status_by_mtid Sample.alice "MT_1"
         [Sample.pending_order; Sample.paid_order].
Proof.
  split; [|split].
  - apply (proj1 (C10_status_by_mtid_owner_only Sample.alice "MT_1"
                    [Sample.pending_order]) 1%nat pending).
    vm_compute. reflexivity.
  - apply (proj1 (proj2 (C10_status_by_mtid_owner_only Sample.bob "MT_1"
                           [Sample.pending_order]))).
    + reflexivity.
    + intros o [<-|[]] _. cbn. discriminate.
  - apply (proj2 (proj2 (C10_status_by_mtid_owner_only Sample.alice "MT_1"
                           [Sample.pending_order]))).
    vm_compute. reflexivity.
Defined.

(* ================================================================== *)
(** ** The helpers of utils/phonepe.js and the gateway payload *)
(* ================================================================== *)

Lemma hex_digit_is_hex (n : Z) : is_hex_lower (Sha256.hex_digit n) = true.
Proof.
  unfold Sha256.hex_digit.
  destruct n as [|p|p]; try reflexivity.
  do 5 (try (destruct p as [p|p|]; try reflexivity)).
Qed.

Lemma sha256_hex_shape (s : string) :
  String.length (Sha256.sha256_hex s) = 64%nat
  /\ string_forall is_hex_lower (Sha256.sha256_hex s) = true.
Proof.
  unfold Sha256.sha256_hex, Sha256.hex_of_regs, Sha256.hex_word,
    Sha256.nibble.
  split; [reflexivity|].
  cbn [string_forall]. rewrite !hex_digit_is_hex. reflexivity.
Qed.

Lemma length_append (s t : string) :
  String.length (s ++ t) = (String.length s + String.length t)%nat.
Proof. induction s as [|c s IH]; cbn; [reflexivity|now rewrite IH]. Qed.

(** X1.  The checksum [calculateChecksum] puts in the [X-VERIFY] header is
    sixty-four lower-case hexadecimal digits, then [###], then the salt
    index: its length is 67 plus the length of the salt index. *)
Theorem calculateChecksum_format (payloadBase64 saltKey saltIndex : string) :
  exists digest,
    calculateChecksum payloadBase64 saltKey saltIndex
    = digest ++ "###" ++ saltIndex
    /\ String.length digest = 64%nat
    /\ string_forall is_hex_lower digest = true
    /\ String.length (calculateChecksum payloadBase64 saltKey saltIndex)
       = (67 + String.length saltIndex)%nat.
Proof.
  exists (Sha256.sha256_hex (payloadBase64 ++ "/pg/v1/pay" ++ saltKey)).
  destruct (sha256_hex_shape (payloadBase64 ++ "/pg/v1/pay" ++ saltKey))
    as [Hlen Hhex].
  split; [reflexivity|]. split; [exact Hlen|]. split; [exact Hhex|].
  unfold calculateChecksum. rewrite !length_append, Hlen. reflexivity.
Qed.

Lemma is_hex_lower_not_dash c :
  is_hex_lower c = true -> Ascii.eqb c "-" = false.
Proof.
  intros H. apply Ascii.eqb_neq. intros ->. discriminate H.
Qed.

Lemma uuid_from_bound pos s : uuid_from pos s = true -> (pos <= 36)%nat.
Proof.
  revert pos. induction s as [|c s IH]; cbn; intros pos H.
  - apply Nat.eqb_eq in H. lia.
  - apply andb_true_iff in H as [_ H]. apply IH in H. lia.
Qed.

(** Removing the dashes loses nothing: two UUID texts that agree without
    their dashes agree with them. *)
Lemma remove_dashes_inj pos s t :
  uuid_from pos s = true -> uuid_from pos t = true ->
  remove_dashes s = remove_dashes t -> s = t.
Proof.
  revert pos t. induction s as [|c s IH]; intros pos [|d t]; cbn.
  - reflexivity.
  - intros Hs Ht. apply Nat.eqb_eq in Hs. subst pos.
    apply andb_true_iff in Ht as [_ Ht]. apply uuid_from_bound in Ht. lia.
  - intros Hs Ht. apply Nat.eqb_eq in Ht. subst pos.
    apply andb_true_iff in Hs as [_ Hs]. apply uuid_from_bound in Hs. lia.
  - intros Hs Ht. apply andb_true_iff in Hs as [Hc Hs].
    apply andb_true_iff in Ht as [Hd Ht].
    destruct (dash_offset pos).
    + apply Ascii.eqb_eq in Hc, Hd. subst c d. cbn.
      intros H. f_equal. eapply IH; eauto.
    + rewrite (is_hex_lower_not_dash _ Hc), (is_hex_lower_not_dash _ Hd).
      intros H. inversion H; subst. f_equal. eapply IH; eauto.
Qed.

Lemma remove_dashes_hex pos s :
  uuid_from pos s = true ->
  string_forall is_hex_lower (remove_dashes s) = true.
Proof.
  revert pos. induction s as [|c s IH]; cbn; intros pos H; [reflexivity|].
  apply andb_true_iff in H as [Hc H].
  destruct (dash_offset pos).
  - rewrite Hc. eauto.
  - rewrite (is_hex_lower_not_dash _ Hc). cbn. rewrite Hc. eauto.
Qed.

(** The number of hexadecimal digits from offset [pos] on. *)
Lemma remove_dashes_length pos s :
  uuid_from pos s = true ->
  String.length (remove_dashes s)
  = List.length (filter (fun i => negb (dash_offset i))
                   (seq pos (36 - pos))).
Proof.
  revert pos. induction s as [|c s IH]; cbn [uuid_from]; intros pos H.
  - apply Nat.eqb_eq in H. subst pos. reflexivity.
  - apply andb_true_iff in H as [Hc H].
    pose proof (uuid_from_bound _ _ H) as Hb.
    replace (36 - pos)%nat with (S (36 - S pos)) by lia.
    cbn [seq filter remove_dashes]. specialize (IH _ H).
    destruct (dash_offset pos); cbn [negb].
    + rewrite Hc. exact IH.
    + rewrite (is_hex_lower_not_dash _ Hc). cbn. now rewrite IH.
Qed.

(** X2.  For the textual form of a UUID, the merchant transaction id is
    [MT_] followed by its thirty-two hexadecimal digits (35 characters, no
    dash, never empty), and distinct UUIDs give distinct ids. *)
Theorem generateMerchantTransactionId_uuid (u : string) :
  is_uuid u = true ->
  (exists digits,
      generateMerchantTransactionId u = "MT_" ++ digits
      /\ String.length digits = 32%nat
      /\ string_forall is_hex_lower digits = true)
  /\ String.length (generateMerchantTransactionId u) = 35%nat
  /\ truthy_str (generateMerchantTransactionId u) = true
  /\ (forall v, is_uuid v = true ->
                generateMerchantTransactionId u
                = generateMerchantTransactionId v -> u = v).
Proof.
  intros Hu. unfold is_uuid in Hu.
  pose proof (remove_dashes_length _ _ Hu) as Hlen. cbn in Hlen.
  split; [|split; [|split]].
  - exists (remove_dashes u). split; [reflexivity|]. split; [exact Hlen|].
    eapply remove_dashes_hex; eauto.
  - unfold generateMerchantTransactionId. cbn. now rewrite Hlen.
  - reflexivity.
  - intros v Hv H. unfold generateMerchantTransactionId in H.
    inversion H. eapply remove_dashes_inj; eauto.
Qed.

Lemma generateMerchantTransactionId_uuid_witness :
  String.length (generateMerchantTransactionId Fixture.uuid) = 35%nat.
Proof.
  apply (generateMerchantTransactionId_uuid Fixture.uuid).
  vm_compute. reflexivity.
Defined.

Lemma string_drop_length n s :
  String.length (string_drop n s) = (String.length s - n)%nat.
Proof.
  revert s. induction n as [|n IH]; intros [|c s]; cbn; auto.
Qed.

Lemma string_drop_forall p n s :
  string_forall p s = true -> string_forall p (string_drop n s) = true.
Proof.
  revert s. induction n as [|n IH]; intros [|c s]; cbn; auto.
  intros H. apply andb_true_iff in H as [_ H]. auto.
Qed.

Lemma strip_non_digits_forall s :
  string_forall is_digit (strip_non_digits s) = true.
Proof.
  induction s as [|c s IH]; cbn; [reflexivity|].
  destruct (is_digit c) eqn:E; cbn; [rewrite E|]; exact IH.
Qed.

Lemma strip_non_digits_id s :
  string_forall is_digit s = true -> strip_non_digits s = s.
Proof.
  induction s as [|c s IH]; cbn; [reflexivity|].
  intros H. apply andb_true_iff in H as [Hc H]. rewrite Hc. f_equal. auto.
Qed.

Lemma string_drop_suffix n s : exists pre, s = pre ++ string_drop n s.
Proof.
  revert s. induction n as [|n IH]; intros s.
  - exists "". reflexivity.
  - destruct s as [|c s]; [exists ""; reflexivity|].
    destruct (IH s) as [pre Hpre]. exists (String c pre).
    cbn. now rewrite <- Hpre.
Qed.

(** X3.  The mobile number put in the gateway payload consists of digits
    only and is the last ten digits of the phone field: it has ten
    characters when the field holds at least ten digits and all of them
    otherwise, and normalising it again changes nothing. *)
Theorem mobileNumber_digits (userPhone : string) :
  string_forall is_digit (mobileNumber userPhone) = true
  /\ String.length (mobileNumber userPhone)
     = Nat.min 10 (String.length (strip_non_digits userPhone))
  /\ (exists dropped,
        strip_non_digits userPhone = dropped ++ mobileNumber userPhone)
  /\ mobileNumber (mobileNumber userPhone) = mobileNumber userPhone.
Proof.
  unfold mobileNumber, slice_last.
  set (d := strip_non_digits userPhone).
  assert (Hd : string_forall is_digit d = true)
    by apply strip_non_digits_forall.
  assert (Hlen : String.length (string_drop (String.length d - 10) d)
                 = Nat.min 10 (String.length d))
    by (rewrite string_drop_length; lia).
  split; [now apply string_drop_forall|]. split; [exact Hlen|]. split.
  - apply string_drop_suffix.
  - rewrite (strip_non_digits_id (string_drop _ d))
      by now apply string_drop_forall.
    rewrite Hlen.
    replace (Nat.min 10 (String.length d) - 10)%nat with O by lia.
    reflexivity.
Qed.

(* ================================================================== *)
(** ** What the routes write *)
(* ================================================================== *)

Section Writes.

Lemma update_by_id_fresh id f db o :
  (forall d, In d db -> Nat.eqb (_id d) id = false) ->
  _id o = id ->
  update_by_id id f (db ++ [o])%list = (db ++ [f o])%list.
Proof.
  intros Hfresh Ho. unfold update_by_id. rewrite map_app. cbn.
  rewrite Ho, Nat.eqb_refl. f_equal.
  rewrite <- (map_id db) at 2. apply map_ext_in.
  intros d Hd. now rewrite (Hfresh d Hd).
Qed.

Lemma create_cod_order_step user body db :
  StoreStep db (outcome_store (create_cod_order user body db)).
Proof.
  unfold create_cod_order.
  destruct (negb (opt_str_is (b_paymentMethod body) "cod"));
    [apply step_none|].
  cbn [d_shippingAddress d_total d_items].
  destruct (is_some (b_shippingAddress body)); [|apply step_none].
  destruct (truthy_opt_num (b_total body)) eqn:Htot; [|apply step_none].
  destruct (b_items body) as [[|i l]|] eqn:Hitems; try apply step_none.
  cbn [is_some items_empty negb orb].
  destruct (Order_create _ db) as [[o db']|e] eqn:Hc; [|apply step_none].
  assert (Hstep : StoreStep db db').
  { unfold Order_create in Hc.
    destruct (new_document (fresh_id db) _) as [doc|] eqn:Hdoc;
      [|discriminate].
    inversion Hc; subst.
    eapply step_insert_cod;
      [exact Hdoc | reflexivity | reflexivity | reflexivity | exact Htot
      | reflexivity]. }
  destruct (Order_findById (_id o) db'); exact Hstep.
Qed.

Lemma initiate_payment_step env user body m gateway db :
  StoreStep db (outcome_store (initiate_payment env user body m gateway db)).
Proof.
  unfold initiate_payment.
  destruct (negb (opt_str_is (b_paymentMethod body) "online"));
    [apply step_none|].
  destruct (is_some (b_shippingAddress body)); [|apply step_none].
  destruct (truthy_opt_num (b_total body)) eqn:Htot; [|apply step_none].
  destruct (b_items body) as [[|i l]|] eqn:Hitems; try apply step_none.
  cbn [is_some items_empty negb orb].
  match goal with |- context [if negb ?c then _ else _] => destruct c end;
    [|apply step_none].
  cbn [negb].
  destruct (negb (env_configured env)); [apply step_none|].
  destruct (Order_create _ db) as [[o db']|e] eqn:Hc; [|apply step_none].
  unfold Order_create in Hc.
  destruct (new_document (fresh_id db) _) as [doc|] eqn:Hdoc;
    [|discriminate].
  inversion Hc; subst o db'; clear Hc.
  assert (Hid : _id (pre_save true doc) = fresh_id db).
  { rewrite pre_save_id. now apply new_document_fields in Hdoc. }
  destruct gateway as [data|st msg errmsg].
  - destruct (resp_success data && _); cbn.
    + eapply (step_insert_online db _ doc i l m false);
        [exact Hdoc | reflexivity | reflexivity | reflexivity | exact Htot
        | reflexivity].
    + unfold Order_findByIdAndUpdate.
      rewrite update_by_id_fresh.
      * eapply (step_insert_online db _ doc i l m true);
          [exact Hdoc | reflexivity | reflexivity | reflexivity | exact Htot
          | reflexivity].
      * intros d Hd. rewrite Hid. now apply fresh_id_fresh.
      * reflexivity.
  - cbn. eapply (step_insert_online db _ doc i l m false);
      [exact Hdoc | reflexivity | reflexivity | reflexivity | exact Htot
      | reflexivity].
Qed.

Lemma phonepe_callback_step decode env req db :
  StoreStep db (outcome_store (phonepe_callback decode env req db)).
Proof.
  unfold phonepe_callback.
  destruct (callback_until_save decode env req db) as [r|s] eqn:Hread;
    [apply step_none|].
  destruct (until_save_inr_inv _ _ _ _ _ Hread)
    as (cb & m & o & _ & Hfind & Hnp & Hnf & ->).
  destruct (find_some _ _ Hfind) as [Hin Hhas].
  apply has_mtid_iff in Hhas.
  destruct (classify_fields cb o) as (_ & _ & _ & _ & _ & _ & _ & _ & Hcl).
  rewrite Hcl. cbn. apply step_callback; auto. congruence.
Qed.

Lemma update_order_status_step id new_status db :
  StoreStep db (snd (update_order_status id new_status db)).
Proof.
  unfold update_order_status.
  destruct new_status as [s|]; [|apply step_none].
  destruct (negb (truthy_str s)); [apply step_none|].
  destruct (enum_status s) as [st|]; [|apply step_none].
  destruct (Order_findById id _); apply step_status.
Qed.

(** Every reachable store is reached by these writes alone. *)
Lemma reachable_ind_steps (P : Store -> Prop) :
  P [] ->
  (forall db db', P db -> StoreStep db db' -> P db') ->
  forall db, Reachable db -> P db.
Proof.
  intros Hnil Hstep db Hr. induction Hr.
  - exact Hnil.
  - eapply Hstep; [eassumption|apply create_cod_order_step].
  - eapply Hstep; [eassumption|apply initiate_payment_step].
  - eapply Hstep; [eassumption|apply phonepe_callback_step].
  - eapply Hstep; [eassumption|apply update_order_status_step].
Qed.

End Writes.

(* ================================================================== *)
(** ** Invariants of the collection *)
(* ================================================================== *)

Section Invariants.

Lemma route_result_step db db' : RouteResult db db' -> StoreStep db db'.
Proof.
  destruct 1.
  - apply create_cod_order_step.
  - apply initiate_payment_step.
  - apply phonepe_callback_step.
  - apply update_order_status_step.
Qed.

Lemma fixed_part_pre_save b o : fixed_part (pre_save b o) = fixed_part o.
Proof.
  unfold pre_save, fixed_part.
  destruct (paymentMethod o) eqn:E, b; cbn; rewrite ?E; reflexivity.
Qed.

Lemma fixed_part_classify cb o :
  fixed_part (saved_order (classify cb o)) = fixed_part o.
Proof.
  unfold classify, fixed_part, num_strict_neq.
  destruct (is_payment_success cb); cbn; [|reflexivity].
  destruct (SFeqb _ (total o)); reflexivity.
Qed.

Lemma fixed_part_eq o o' :
  fixed_part o' = fixed_part o ->
  paymentMethod o' = paymentMethod o
  /\ merchantTransactionId o' = merchantTransactionId o
  /\ paymentGateway o' = paymentGateway o.
Proof. unfold fixed_part. intros H. inversion H. auto. Qed.

Lemma order_valid_fixed o o' :
  fixed_part o' = fixed_part o -> order_valid o' = order_valid o.
Proof.
  unfold fixed_part, order_valid. intros H. inversion H. congruence.
Qed.

Lemma pre_save_gatewayTransactionId b o :
  gatewayTransactionId (pre_save b o) = gatewayTransactionId o.
Proof. unfold pre_save; destruct (paymentMethod o), b; reflexivity. Qed.

Lemma cast_number_not_nan x y : cast_number x = Some y -> isNaN y = false.
Proof.
  unfold cast_number. destruct (isNaN x) eqn:E; [discriminate|].
  intros H; inversion H; subst. exact E.
Qed.

Lemma cast_item_valid i it : cast_item i = Some it -> item_valid it = true.
Proof.
  unfold cast_item, item_valid.
  destruct (in_productId i), (in_quantity i) as [q|], (in_price i) as [pr|];
    try discriminate.
  destruct (cast_number q) as [q'|] eqn:Hq; [|discriminate].
  destruct (cast_number pr) as [pr'|] eqn:Hpr; [|discriminate].
  destruct (SFleb (num_of_Z 1) q') eqn:Hmin; [|discriminate].
  intros H; inversion H; subst; cbn [quantity price].
  now rewrite (cast_number_not_nan _ _ Hq), (cast_number_not_nan _ _ Hpr),
    Hmin.
Qed.

Lemma cast_items_valid l its :
  cast_items l = Some its ->
  forallb item_valid its = true /\ List.length its = List.length l.
Proof.
  revert its. induction l as [|i l IH]; cbn; intros its H.
  - inversion H. auto.
  - destruct (cast_item i) as [it|] eqn:Hi; [|discriminate].
    destruct (cast_items l) as [its'|]; [|discriminate].
    inversion H; subst. destruct (IH _ eq_refl) as [Hall Hlen].
    cbn. now rewrite (cast_item_valid _ _ Hi), Hall, Hlen.
Qed.

Lemma required_string_truthy x s :
  required_string x = Some s -> truthy_str s = true.
Proof.
  unfold required_string. destruct x as [t|]; [|discriminate].
  destruct (truthy_str t) eqn:E; [|discriminate].
  intros H; inversion H; subst. exact E.
Qed.

Lemma cast_address_valid a addr :
  cast_address a = Some addr -> address_valid addr = true.
Proof.
  unfold cast_address, address_valid. destruct a as [a|]; [|discriminate].
  destruct (required_string (in_fullName a)) eqn:H1; [|discriminate].
  destruct (required_string (in_phone a)) eqn:H2; [|discriminate].
  destruct (required_string (in_addressLine1 a)) eqn:H3; [|discriminate].
  destruct (required_string (in_city a)) eqn:H4; [|discriminate].
  destruct (required_string (in_state a)) eqn:H5; [|discriminate].
  destruct (required_string (in_pincode a)) eqn:H6; [|discriminate].
  intros H; inversion H; subst; cbn.
  now rewrite (required_string_truthy _ _ H1), (required_string_truthy _ _ H2),
    (required_string_truthy _ _ H3), (required_string_truthy _ _ H4),
    (required_string_truthy _ _ H5), (required_string_truthy _ _ H6).
Qed.

(** What validation establishes of a new document. *)
Lemma new_document_checked id data doc :
  new_document id data = Some doc ->
  cast_items (match d_items data with Some l => l | None => [] end)
  = Some (items doc)
  /\ address_valid (shippingAddress doc) = true
  /\ isNaN (shippingCharge doc) = false
  /\ isNaN (total doc) = false
  /\ match d_paymentGateway data with
     | Some s => option_map Some (enum_paymentGateway s)
                 = Some (paymentGateway doc)
     | None => paymentGateway doc = None
     end.
Proof.
  unfold new_document. intros H.
  destruct (d_userId data); [|discriminate].
  destruct (cast_items _) as [its|] eqn:Hits; [|discriminate].
  destruct (cast_address _) as [addr|] eqn:Haddr; [|discriminate].
  destruct (match d_paymentMethod data with Some _ => _ | None => _ end);
    [|discriminate].
  destruct (match d_shippingCharge data with Some _ => _ | None => _ end)
    as [charge|] eqn:Hcharge; [|discriminate].
  destruct (match d_total data with Some _ => _ | None => _ end)
    as [tot|] eqn:Htot; [|discriminate].
  destruct (cast_enum enum_paymentStatus _ _); [|discriminate].
  destruct (cast_enum enum_status _ _); [|discriminate].
  destruct (match d_paymentGateway data with Some _ => _ | None => _ end)
    as [gw|] eqn:Hgw; [|discriminate].
  inversion H; subst; clear H; cbn.
  split; [reflexivity|]. split; [now apply cast_address_valid in Haddr|].
  split; [|split].
  - destruct (d_shippingCharge data) as [c|].
    + now apply cast_number_not_nan in Hcharge.
    + inversion Hcharge. reflexivity.
  - destruct (d_total data) as [t|]; [|discriminate].
    now apply cast_number_not_nan in Htot.
  - destruct (d_paymentGateway data); [exact Hgw|]. now inversion Hgw.
Qed.

(** A document that passed the checks of a creation route. *)
Lemma new_document_valid id data doc i l :
  new_document id data = Some doc ->
  truthy_opt_num (d_total data) = true ->
  d_items data = Some (i :: l) ->
  order_valid doc = true.
Proof.
  intros Hdoc _ Hitems.
  destruct (new_document_checked _ _ _ Hdoc) as (Hits & Haddr & Hc & Ht & _).
  rewrite Hitems in Hits.
  apply cast_items_valid in Hits as [Hall Hlen].
  unfold order_valid. rewrite Hall, Haddr, Ht, Hc.
  destruct (items doc); [discriminate|reflexivity].
Qed.

Lemma Forall_update_by_id (P : Order -> Prop) id f db :
  Forall P db ->
  (forall d, In d db -> _id d = id -> P (f d)) ->
  Forall P (update_by_id id f db).
Proof.
  intros Hall Hf. apply Forall_forall. intros o Hin.
  apply in_update_by_id in Hin as [Hin|(d & Hd & Hid & ->)]; auto.
  rewrite Forall_forall in Hall. auto.
Qed.

Lemma Forall_snoc (P : Order -> Prop) db o :
  Forall P db -> P o -> Forall P (db ++ [o])%list.
Proof. intros. apply Forall_app. auto. Qed.

Lemma consistent_has_mtid o :
  order_consistent o -> merchantTransactionId o <> None ->
  paymentMethod o = online.
Proof.
  unfold order_consistent. destruct (paymentMethod o); [|reflexivity].
  intros (_ & Hm & _) Hne. contradiction.
Qed.

Lemma step_consistent db db' :
  StoreStep db db' -> Forall order_consistent db ->
  Forall order_consistent db'.
Proof.
  intros Hstep Hall. destruct Hstep as
    [ | data doc i l Hdoc Hpm Hgw Hm _ _
      | data doc i l m failed_ Hdoc Hpm Hgw Hm _ _
      | o cb Hin Hmt Hnp Hnf | id st ].
  - exact Hall.
  - apply Forall_snoc; [exact Hall|].
    destruct (new_document_checked _ _ _ Hdoc) as (_ & _ & _ & _ & Hg).
    apply new_document_fields in Hdoc as (_ & _ & _ & Hmt & Hmeth & Hgt).
    specialize (Hmeth _ Hpm). rewrite Hgw in Hg. cbn in Hmeth, Hg.
    pose proof (pre_save_new doc) as Hnew.
    unfold order_consistent.
    rewrite pre_save_paymentMethod, pre_save_mtid.
    assert (Hc : paymentMethod doc = cod) by congruence.
    rewrite Hc in *. destruct Hnew as [Hps _].
    destruct (fixed_part_eq _ _ (fixed_part_pre_save true doc))
      as (_ & _ & Hg').
    rewrite Hg', pre_save_gatewayTransactionId. repeat split; congruence.
  - apply Forall_snoc; [exact Hall|].
    destruct (new_document_checked _ _ _ Hdoc) as (_ & _ & _ & _ & Hg).
    apply new_document_fields in Hdoc as (_ & _ & _ & Hmt & Hmeth & _).
    specialize (Hmeth _ Hpm). rewrite Hgw in Hg. cbn in Hmeth, Hg.
    assert (Hc : paymentMethod doc = online) by congruence.
    pose proof (pre_save_new doc) as Hnew. rewrite Hc in Hnew.
    destruct Hnew as [Hps _].
    destruct (fixed_part_eq _ _ (fixed_part_pre_save true doc))
      as (Hpm' & Hm' & Hg').
    unfold order_consistent.
    destruct failed_; cbn; rewrite Hpm', Hc, ?Hm', ?Hg', ?Hps;
      repeat split; congruence.
  - unfold Order_save. apply Forall_update_by_id; [exact Hall|].
    intros d _ _. rewrite Forall_forall in Hall.
    pose proof (consistent_has_mtid o (Hall o Hin) Hmt) as Honline.
    pose proof (Hall o Hin) as Ho. unfold order_consistent in Ho.
    rewrite Honline in Ho. destruct Ho as (_ & _ & Hgw).
    pose proof (fixed_part_classify cb o) as Hfix.
    destruct (classify_fields cb o) as (_ & _ & Hpm & _ & _ & Hp & _).
    set (o' := saved_order (classify cb o)) in *.
    rewrite (pre_save_online o') by congruence.
    destruct (fixed_part_eq _ _ Hfix) as (_ & Hm' & Hg').
    unfold order_consistent. rewrite Hpm, Honline, Hm', Hg', Hp.
    repeat split; auto.
    unfold callback_paymentStatus. destruct (is_payment_success cb);
      discriminate.
  - apply Forall_update_by_id; [exact Hall|].
    intros d Hd _. rewrite Forall_forall in Hall. exact (Hall d Hd).
Qed.

Lemma step_valid db db' :
  StoreStep db db' -> Forall (fun o => order_valid o = true) db ->
  Forall (fun o => order_valid o = true) db'.
Proof.
  intros Hstep Hall. destruct Hstep as
    [ | data doc i l Hdoc _ _ _ Htot Hitems
      | data doc i l m failed_ Hdoc _ _ _ Htot Hitems
      | o cb Hin _ _ _ | id st ].
  - exact Hall.
  - apply Forall_snoc; [exact Hall|].
    rewrite (order_valid_fixed doc) by apply fixed_part_pre_save.
    eapply new_document_valid; eauto.
  - apply Forall_snoc; [exact Hall|].
    assert (Hv : order_valid (pre_save true doc) = true).
    { rewrite (order_valid_fixed doc) by apply fixed_part_pre_save.
      eapply new_document_valid; eauto. }
    destruct failed_; exact Hv.
  - unfold Order_save. apply Forall_update_by_id; [exact Hall|].
    intros d _ _. rewrite Forall_forall in Hall.
    rewrite (order_valid_fixed o); [exact (Hall o Hin)|].
    now rewrite fixed_part_pre_save, fixed_part_classify.
  - apply Forall_update_by_id; [exact Hall|].
    intros d Hd _. rewrite Forall_forall in Hall. exact (Hall d Hd).
Qed.

Lemma map_id_update id f db :
  (forall d, In d db -> _id d = id -> _id (f d) = id) ->
  map _id (update_by_id id f db) = map _id db.
Proof.
  intros Hf. unfold update_by_id. rewrite map_map. apply map_ext_in.
  intros d Hd. destruct (Nat.eqb (_id d) id) eqn:E; [|reflexivity].
  apply Nat.eqb_eq in E. rewrite (Hf d Hd E). now symmetry.
Qed.

Lemma ids_unique_snoc db o :
  ids_unique db -> _id o = fresh_id db -> ids_unique (db ++ [o])%list.
Proof.
  unfold ids_unique. intros Hnd Hid. rewrite map_app. cbn.
  apply NoDup_app; [exact Hnd|repeat constructor; auto|].
  intros x Hx [<-|[]]. apply in_map_iff in Hx as (d & Hd & Hin).
  apply fresh_id_fresh in Hin. apply Nat.eqb_neq in Hin. congruence.
Qed.

Lemma step_ids_unique db db' :
  StoreStep db db' -> ids_unique db -> ids_unique db'.
Proof.
  intros Hstep Hnd. destruct Hstep as
    [ | data doc i l Hdoc _ _ _ _ _
      | data doc i l m failed_ Hdoc _ _ _ _ _
      | o cb Hin _ _ _ | id st ].
  - exact Hnd.
  - apply ids_unique_snoc; [exact Hnd|]. rewrite pre_save_id.
    now apply new_document_fields in Hdoc.
  - apply ids_unique_snoc; [exact Hnd|].
    apply new_document_fields in Hdoc as (Hid & _).
    destruct failed_; cbn; now rewrite pre_save_id.
  - unfold ids_unique, Order_save. rewrite map_id_update; [exact Hnd|].
    intros d _ _. apply pre_save_id.
  - unfold ids_unique. rewrite map_id_update; [exact Hnd|]. auto.
Qed.

Lemma reachable_ids_unique db : Reachable db -> ids_unique db.
Proof.
  apply reachable_ind_steps; [constructor|].
  intros. eapply step_ids_unique; eauto.
Qed.

Lemma reachable_consistent db : Reachable db -> Forall order_consistent db.
Proof.
  apply reachable_ind_steps; [constructor|].
  intros. eapply step_consistent; eauto.
Qed.

(** X4.  In every store the routes can build, payment method, payment
    status and gateway data agree on every order: a COD order has
    [paymentStatus = not_applicable], gateway [cod] and neither a merchant
    nor a gateway transaction id; an online order has a merchant
    transaction id, gateway [phonepe] and a payment status other than
    [not_applicable]. *)
Theorem reachable_orders_consistent (db : Store) (o : Order) :
  Reachable db -> In o db -> order_consistent o.
Proof.
  intros Hr. revert o. apply Forall_forall. now apply reachable_consistent.
Qed.

(** X5.  Every order in a store the routes can build has at least one
    item, quantities of at least 1, prices, shipping charge and total that
    are numbers (not [NaN]), and all required address fields non-empty. *)
Theorem reachable_orders_valid (db : Store) (o : Order) :
  Reachable db -> In o db -> order_valid o = true.
Proof.
  intros Hr. revert o.
  apply (proj1 (Forall_forall (fun o => order_valid o = true) db)).
  revert db Hr. apply reachable_ind_steps; [constructor|].
  intros. eapply step_valid; eauto.
Qed.

End Invariants.

(* ================================================================== *)
(** ** What the routes leave alone *)
(* ================================================================== *)

Section Frame.

Lemma ids_unique_same_id db d o :
  ids_unique db -> In d db -> In o db -> _id d = _id o -> d = o.
Proof.
  unfold ids_unique. induction db as [|x db IH]; cbn; [tauto|].
  intros Hnd Hd Ho Hid. inversion Hnd as [|? ? Hnotin Hnd']; subst.
  destruct Hd as [->|Hd], Ho as [->|Ho]; auto.
  - exfalso. apply Hnotin. rewrite Hid. now apply in_map.
  - exfalso. apply Hnotin. rewrite <- Hid. now apply in_map.
Qed.

Lemma update_by_id_keeps id f db o :
  In o db -> _id o <> id -> In o (update_by_id id f db).
Proof.
  intros Hin Hid. unfold update_by_id. apply in_map_iff. exists o.
  apply Nat.eqb_neq in Hid. now rewrite Hid.
Qed.

Lemma map_fixed_update id f db :
  (forall d, In d db -> _id d = id -> fixed_part (f d) = fixed_part d) ->
  map fixed_part (update_by_id id f db) = map fixed_part db.
Proof.
  intros Hf. unfold update_by_id. rewrite map_map. apply map_ext_in.
  intros d Hd. destruct (Nat.eqb (_id d) id) eqn:E; [|reflexivity].
  apply Nat.eqb_eq in E. auto.
Qed.

Lemma step_frame db db' :
  ids_unique db -> StoreStep db db' ->
  exists new,
    (new = [] \/ exists o, new = [o])
    /\ map fixed_part db' = map fixed_part (db ++ new)%list.
Proof.
  intros Hnd Hstep. destruct Hstep as
    [ | data doc i l _ _ _ _ _ _ | data doc i l m failed_ _ _ _ _ _ _
      | o cb Hin _ _ _ | id st ].
  - exists []. rewrite app_nil_r. auto.
  - eexists [_]. split; [right; eauto|reflexivity].
  - eexists [_]. split; [right; eauto|reflexivity].
  - exists []. rewrite app_nil_r. split; [auto|].
    unfold Order_save. apply map_fixed_update.
    intros d Hd Hid. rewrite fixed_part_pre_save, fixed_part_classify.
    f_equal. symmetry. apply (ids_unique_same_id db); auto.
    destruct (classify_fields cb o) as (Hid' & _). congruence.
  - exists []. rewrite app_nil_r. split; [auto|].
    apply map_fixed_update. reflexivity.
Qed.

(** X6.  No request to the order router or to the callback deletes an
    order, inserts more than one, or changes the identifier, owner, items,
    shipping address, payment method, shipping charge, total, merchant
    transaction id or gateway of a stored order. *)
Theorem routes_keep_existing_orders (db db' : Store) :
  Reachable db -> RouteResult db db' ->
  exists new,
    (new = [] \/ exists o, new = [o])
    /\ map fixed_part db' = map fixed_part (db ++ new)%list.
Proof.
  intros Hr Hres. apply step_frame.
  - now apply reachable_ids_unique.
  - now apply route_result_step.
Qed.

(** X7.  In a store the routes can build, no callback, whatever it
    carries, changes a COD order or an order that is already paid or
    failed. *)
Theorem callback_leaves_settled_orders
  (decode : string -> option Callback) (env : Env) (req : CallbackRequest)
  (db : Store) (o : Order) :
  Reachable db -> In o db ->
  paymentMethod o = cod \/ paymentStatus o = paid \/ paymentStatus o = failed ->
  In o (outcome_store (phonepe_callback decode env req db)).
Proof.
  intros Hr Hin Hsettled. unfold phonepe_callback.
  destruct (callback_until_save decode env req db) as [r|s] eqn:Hread;
    [exact Hin|].
  destruct (until_save_inr_inv _ _ _ _ _ Hread)
    as (cb & m & f & _ & Hfind & Hnp & Hnf & ->).
  destruct (find_some _ _ Hfind) as [Hf Hhas]. apply has_mtid_iff in Hhas.
  destruct (classify_fields cb f) as (Hid & _ & _ & _ & _ & _ & _ & _ & Hcl).
  rewrite Hcl. cbn. unfold Order_save. apply update_by_id_keeps; [exact Hin|].
  rewrite Hid. intros Hsame.
  assert (o = f)
    by (apply (ids_unique_same_id db); auto using reachable_ids_unique).
  subst f. destruct Hsettled as [Hcod|[Hp|Hfl]]; try contradiction.
  pose proof (proj1 (Forall_forall _ _) (reachable_consistent db Hr) o Hin)
    as Hc.
  unfold order_consistent in Hc. rewrite Hcod in Hc.
  destruct Hc as (_ & Hm & _). congruence.
Qed.

End Frame.

(* ================================================================== *)
(** ** The callback handler: acknowledgements and notifications *)
(* ================================================================== *)

(** X8.  A callback that passes verification but cannot be matched to an
    order changes nothing and requests no notification: a payload that
    fails to decode is answered with status 500, one without a merchant
    transaction id and one whose merchant transaction id no order carries
    with status 200. *)
Theorem callback_unmatched_is_acknowledged
  (decode : string -> option Callback) (env : Env) (payload header : string)
  (db : Store) :
  truthy_str payload = true -> truthy_str header = true ->
  verifyChecksum payload header (js_string (PHONEPE_SALT_KEY env))
    (js_string (PHONEPE_SALT_INDEX env)) = true ->
  let req := mkCallbackRequest (Some payload) (Some header) in
  (decode payload = None ->
   phonepe_callback decode env req db
   = (SendText 500 "Internal Server Error processing callback.", db, []))
  /\ (forall cb,
         decode payload = Some cb ->
         truthy_opt_str (data_field cb_merchantTransactionId (cb_data cb))
         = false ->
         phonepe_callback decode env req db
         = (SendText 200
              "Callback acknowledged, missing merchant transaction ID.",
            db, []))
  /\ (forall cb m,
         decode payload = Some cb ->
         data_field cb_merchantTransactionId (cb_data cb) = Some m ->
         truthy_str m = true ->
         mtid_unused m db ->
         phonepe_callback decode env req db
         = (SendText 200 "Order not found, acknowledged.", db, [])).
Proof.
  intros Hp Hh Hv req.
  unfold phonepe_callback, callback_until_save; subst req;
    cbn [response x_verify truthy_opt_str js_string].
  rewrite Hp, Hh. cbn [negb]. rewrite Hv. cbn [negb].
  split; [|split].
  - intros ->. reflexivity.
  - intros cb -> ->. reflexivity.
  - intros cb m -> -> Hm Hunused. cbn [truthy_opt_str js_string].
    rewrite Hm. cbn [negb].
    destruct (Order_findOne (has_mtid m) db) as [o|] eqn:Hfind;
      [|reflexivity].
    destruct (find_some _ _ Hfind) as [Hin Hhas].
    apply has_mtid_iff in Hhas. destruct (Hunused o Hin Hhas).
Qed.

(** X9.  The handler requests notifications only when it has just saved an
    order as paid: the notifications are then the confirmation and the
    admin notification for that one order, and the reply is the
    acknowledgement of a processed callback. *)
Theorem callback_notifies_only_when_paid
  (decode : string -> option Callback) (env : Env) (req : CallbackRequest)
  (db db' : Store) (r : Reply) (n : list Notification) :
  store_ok db ->
  phonepe_callback decode env req db = (r, db', n) ->
  n <> [] ->
  exists o',
    In o' db' /\ paymentStatus o' = paid /\ n = order_emails o'
    /\ r = SendText 200 "Callback processed successfully.".
Proof.
  intros Hok Hrun Hn.
  destruct (callback_until_save decode env req db) as [r0|s] eqn:Hread.
  - unfold phonepe_callback in Hrun. rewrite Hread in Hrun.
    inversion Hrun; subst. contradiction.
  - destruct (until_save_inr_inv _ _ _ _ _ Hread)
      as (cb & m & o & Hv & Hfind & Hnp & Hnf & ->).
    pose proof (store_ok_found _ _ _ Hok Hfind) as Honline.
    destruct (callback_on_open_order decode env req cb m db o Hv Hfind
                Hnp Hnf) as (_ & Hrun' & Hfound).
    destruct (classify_fields cb o)
      as (_ & _ & Hpm & _ & _ & Hp & _ & _ & _).
    set (o' := saved_order (classify cb o)) in *.
    rewrite (pre_save_online o') in Hrun', Hfound by congruence.
    rewrite Hrun' in Hrun. inversion Hrun; subst r db' n.
    destruct (is_payment_success cb) eqn:Hs; [|contradiction].
    exists o'. destruct (find_some _ _ Hfound) as [Hin _].
    unfold callback_paymentStatus in Hp. rewrite Hs in Hp. auto.
Qed.

(** X10.  The handler never consults the configured salt: its outcome is
    the same under any two environments.  In particular a callback that
    carries the checksum of the callback-mode formula for the configured
    salt key and index is answered "Checksum mismatch" with status 400 and
    leaves the store unchanged. *)
Theorem callback_ignores_salt
  (decode : string -> option Callback) (req : CallbackRequest) (db : Store) :
  (forall env env',
      phonepe_callback decode env req db
      = phonepe_callback decode env' req db)
  /\ (forall env payload,
         truthy_str payload = true ->
         phonepe_callback decode env
           (mkCallbackRequest (Some payload)
              (Some (callback_checksum payload
                       (js_string (PHONEPE_SALT_KEY env))
                       (js_string (PHONEPE_SALT_INDEX env))))) db
         = (SendText 400 "Checksum mismatch", db, [])).
Proof.
  split.
  - intros env env'. reflexivity.
  - intros env payload Hp.
    unfold phonepe_callback, callback_until_save.
    cbn [response x_verify truthy_opt_str js_string]. rewrite Hp.
    cbn [negb].
    assert (Hh : truthy_str (callback_checksum payload
                               (js_string (PHONEPE_SALT_KEY env))
                               (js_string (PHONEPE_SALT_INDEX env))) = true).
    { unfold callback_checksum, Sha256.sha256_hex, Sha256.hex_of_regs,
        Sha256.hex_word. reflexivity. }
    rewrite Hh. cbn [negb]. unfold verifyChecksum.
    rewrite callback_checksum_not_literal. reflexivity.
Qed.

(* ================================================================== *)
(** ** The admin status update, the read routes, the earlier router *)
(* ================================================================== *)

Lemma enum_status_truthy s st : enum_status s = Some st -> truthy_str s = true.
Proof. destruct s; [discriminate|reflexivity]. Qed.

Lemma update_by_id_absent id f db :
  Order_findById id db = None -> update_by_id id f db = db.
Proof.
  unfold Order_findById, update_by_id. intros Hnone.
  rewrite <- (map_id db) at 2. apply map_ext_in. intros d Hd.
  now rewrite (find_none _ _ Hnone d Hd).
Qed.

(** X11.  The admin status update rejects a missing, empty or unknown
    status with a 400 error and an unknown order id with a 404 error, in
    both cases leaving the store as it was; otherwise it answers with the
    order carrying the new status.  Whatever it is given, it changes no
    field other than [status]: payment status and gateway transaction id
    stay as they are. *)
Theorem update_order_status_effect
  (id : ObjectId) (new_status : option string) (db db' : Store) (r : Reply) :
  update_order_status id new_status db = (r, db') ->
  map (fun o => (fixed_part o, paymentStatus o, gatewayTransactionId o)) db'
  = map (fun o => (fixed_part o, paymentStatus o, gatewayTransactionId o)) db
  /\ match match new_status with
           | Some s => enum_status s
           | None => None
           end with
     | None => db' = db /\ reply_status r = Some 400
     | Some st =>
         match Order_findById id db with
         | None =>
             db' = db
             /\ r = Next (AppError "No order found with that ID" 404)
         | Some o =>
             r = SendOrder 200 (set_status o st)
             /\ db' = update_by_id id (fun o => set_status o st) db
         end
     end.
Proof.
  unfold update_order_status. destruct new_status as [s|].
  - destruct (enum_status s) as [st|] eqn:Hst.
    + rewrite (enum_status_truthy _ _ Hst). cbn [negb].
      unfold Order_findByIdAndUpdate. rewrite findById_update by reflexivity.
      destruct (Order_findById id db) as [o|] eqn:Hfind; cbn [option_map];
        intros H; inversion H; subst; clear H.
      * split; [|auto]. unfold update_by_id. rewrite map_map.
        apply map_ext. intros d. destruct (Nat.eqb (_id d) id); reflexivity.
      * rewrite (update_by_id_absent _ _ _ Hfind). auto.
    + destruct (negb (truthy_str s)); intros H; inversion H; auto.
  - intros H; inversion H; auto.
Qed.

Lemma update_order_status_effect_witness :
  [Sample.pending_order] = [Sample.pending_order]
  /\ reply_status (Next (AppError "Invalid status value: refunded" 400))
     = Some 400.
Proof.
  apply (proj2 (update_order_status_effect 1%nat (Some "refunded")
                  [Sample.pending_order] [Sample.pending_order]
                  (Next (AppError "Invalid status value: refunded" 400))
                  eq_refl)).
Defined.

(** X12.  The two read routes of a user show that user's orders only:
    [my-orders] lists exactly the stored orders whose owner is the
    requester, and the single-order route answers with an order only when
    it has the requested id and belongs to the requester, with the 404
    error when every order of that id belongs to someone else. *)
Theorem read_routes_show_own_orders (user : User) (db : Store) :
  (forall o, In o (my_orders user db)
             <-> In o db /\ userId o = user_id user)
  /\ (forall id o,
         get_order user id db = SendOrder 200 o ->
         In o db /\ _id o = id /\ userId o = user_id user)
  /\ (forall id,
         (forall o, In o db -> _id o = id -> userId o <> user_id user) ->
         get_order user id db
         = Next (AppError "No order found with that ID for this user." 404)).
Proof.
  split; [|split].
  - intros o. unfold my_orders. rewrite <- in_rev, filter_In, Nat.eqb_eq.
    tauto.
  - intros id o. unfold get_order.
    destruct (Order_findOne _ db) as [o'|] eqn:Hfind; [|discriminate].
    intros H; inversion H; subst.
    destruct (find_some _ _ Hfind) as [Hin Hq].
    apply andb_true_iff in Hq as [Hid Hu].
    apply Nat.eqb_eq in Hid, Hu. auto.
  - intros id Hothers. unfold get_order.
    destruct (Order_findOne _ db) as [o'|] eqn:Hfind; [|reflexivity].
    destruct (find_some _ _ Hfind) as [Hin Hq].
    apply andb_true_iff in Hq as [Hid Hu].
    apply Nat.eqb_eq in Hid, Hu. destruct (Hothers o' Hin Hid Hu).
Qed.

Lemma read_routes_show_own_orders_witness :
  (In Sample.pending_order [Sample.pending_order]
   /\ _id Sample.pending_order = 1%nat
   /\ userId Sample.pending_order = user_id Sample.alice)
  /\ get_order Sample.bob 1%nat [Sample.pending_order]
     = Next (AppError "No order found with that ID for this user." 404).
Proof.
  split.
  - apply (proj1 (proj2 (read_routes_show_own_orders Sample.alice
                           [Sample.pending_order])) 1%nat
             Sample.pending_order).
    reflexivity.
  - apply (proj2 (proj2 (read_routes_show_own_orders Sample.bob
                           [Sample.pending_order])) 1%nat).
    intros o [<-|[]] _. cbn. discriminate.
Defined.

(** X13.  The earlier creation route stores what the body says: when the
    body names a [userId] the order belongs to that user and not to the
    requester, and a [merchantTransactionId] in the body is stored as
    given.  The payment status and status in the body are still replaced
    by the pre-save hook, and no notification is requested. *)
Theorem legacy_create_order_trusts_body
  (user : User) (body : OrderData) (db db' : Store) (o : Order)
  (n : list Notification) :
  legacy_create_order user body db = (SendOrder 201 o, db', n) ->
  db' = (db ++ [o])%list
  /\ n = []
  /\ userId o = match d_userId body with
                | Some u => u
                | None => user_id user
                end
  /\ merchantTransactionId o = d_merchantTransactionId body
  /\ match paymentMethod o with
     | cod => paymentStatus o = not_applicable /\ status o = processing
     | online => paymentStatus o = pending /\ status o = payment_pending
     end.
Proof.
  unfold legacy_create_order.
  destruct (Order_create _ db) as [[o1 db1]|e] eqn:Hc; [|discriminate].
  intros H; inversion H; subst; clear H.
  apply Order_create_inv in Hc as (doc & Hdoc & -> & -> & _).
  apply new_document_fields in Hdoc as (_ & Hu & _ & Hm & _).
  cbn in Hu, Hm.
  rewrite pre_save_userId, pre_save_mtid, pre_save_paymentMethod.
  repeat split; try assumption.
  - destruct (d_userId body); congruence.
  - apply pre_save_new.
Qed.

Lemma legacy_create_order_trusts_body_witness :
  [Fixture.spoofed_cod_order] = ([] ++ [Fixture.spoofed_cod_order])%list
  /\ @nil Notification = []
  /\ userId Fixture.spoofed_cod_order = 8%nat
  /\ merchantTransactionId Fixture.spoofed_cod_order = Some "MT_1"
  /\ paymentStatus Fixture.spoofed_cod_order = not_applicable
     /\ status Fixture.spoofed_cod_order = processing.
Proof.
  apply (legacy_create_order_trusts_body Sample.alice
           Fixture.spoofed_cod_data [] [Fixture.spoofed_cod_order]
           Fixture.spoofed_cod_order []).
  vm_compute. reflexivity.
Defined.

(* ================================================================== *)
(** ** The payment flow end to end *)
(* ================================================================== *)

Section Flow.

(** Looking up by a filter after the matching document was replaced. *)
Lemma find_after_replace (q : Order -> bool) db o o' :
  find q db = Some o -> _id o' = _id o -> q o' = true ->
  find q (update_by_id (_id o) (fun _ => o') db) = Some o'.
Proof.
  intros Hfind Hid Hq. unfold update_by_id.
  induction db as [|d db IH]; cbn in *; [discriminate|].
  destruct (Nat.eqb (_id d) (_id o)) eqn:Eid.
  - now rewrite Hq.
  - destruct (q d) eqn:Ed.
    + inversion Hfind; subst. rewrite Nat.eqb_refl in Eid. discriminate.
    + now apply IH.
Qed.

Lemma find_app_split (q : Order -> bool) (l l' : list Order) :
  find q (l ++ l')
  = match find q l with Some x => Some x | None => find q l' end.
Proof.
  induction l as [|d l IH]; cbn; [reflexivity|].
  destruct (q d); auto.
Qed.

(** What a payment initiation that reached the gateway has stored. *)
Lemma initiate_payment_created env user body m gateway db r db' n :
  mtid_unused m db ->
  initiate_payment env user body m gateway db = (r, db', n) ->
  db' <> db ->
  exists o,
    paymentMethod o = online /\ paymentStatus o = pending
    /\ status o = payment_pending
    /\ merchantTransactionId o = Some m
    /\ userId o = user_id user
    /\ b_total body = Some (total o)
    /\ Order_findOne (has_mtid m) (db ++ [o])%list = Some o
    /\ Order_findOne (status_query m user) (db ++ [o])%list = Some o
    /\ match gateway with
       | Resolved data =>
           if resp_success data && truthy_opt_str (resp_redirect_url data)
           then db' = (db ++ [o])%list
           else db' = update_by_id (_id o) (fun _ => mark_payment_failed o)
                        (db ++ [o])%list
       | Rejected _ _ _ => db' = (db ++ [o])%list
       end.
Proof.
  intros Hunused Hrun Hchanged.
  apply initiate_payment_inv in Hrun
    as [(-> & _)|(o & Hpm & Hps & Hst & Hm & Hu & Ht & _ & Hbyid & _ & Hg)];
    [contradiction|].
  exists o.
  assert (Hfind : Order_findOne (has_mtid m) (db ++ [o])%list = Some o).
  { apply find_app_fresh; [|now apply has_mtid_iff].
    intros d Hd. destruct (has_mtid m d) eqn:E; [|reflexivity].
    apply has_mtid_iff in E. destruct (Hunused d Hd E). }
  assert (Hpoll : Order_findOne (status_query m user) (db ++ [o])%list
                  = Some o).
  { apply find_app_fresh; [|now apply status_query_iff].
    intros d Hd. destruct (status_query m user d) eqn:E; [|reflexivity].
    apply status_query_iff in E as [E _]. destruct (Hunused d Hd E). }
  repeat (split; [assumption|]).
  destruct gateway as [data|st msg errmsg]; [|tauto].
  destruct (resp_success data && _); [tauto|].
  destruct Hg as [_ ->]. unfold update_by_id. apply map_ext_in.
  intros d Hd. destruct (Nat.eqb (_id d) (_id o)) eqn:E; [|reflexivity].
  f_equal. apply in_app_or in Hd as [Hd|[<-|[]]]; [|reflexivity].
  exfalso. unfold Order_findById in Hbyid.
  rewrite find_app_split in Hbyid.
  destruct (find (fun x => Nat.eqb (_id x) (_id o)) db) as [x|] eqn:Hx.
  - inversion Hbyid; subst x. destruct (find_some _ _ Hx) as [Hin _].
    apply (Hunused o Hin Hm).
  - now rewrite (find_none _ _ Hx d Hd) in E.
Qed.

(** X14.  After a payment initiation that stored an order under a merchant
    transaction id no other order carries, the owner's status poll for
    that id reports the new order as pending; a verified callback for it
    is then applied to that order, with the state of step 6 computed
    against the total of the request, and the poll reports the new payment
    status. *)
Theorem initiation_then_callback
  (decode : string -> option Callback) (env : Env) (user : User)
  (body : OrderBody) (m url : string) (gateway : AxiosResult)
  (req : CallbackRequest) (cb : Callback) (db db1 : Store)
  (n : list Notification) :
  mtid_unused m db ->
  initiate_payment env user body m gateway db = (SendRedirect url, db1, n) ->
  verified_callback decode env req cb m ->
  exists o t,
    db1 = (db ++ [o])%list
    /\ b_total body = Some t
    /\ order_status_by_mtid user m db1 = SendPaymentStatus (_id o) pending
    /\ let o' :=
         set_gatewayTransactionId
           (set_paymentStatus (set_status o (callback_status cb t))
              (callback_paymentStatus cb))
           (data_field cb_transactionId (cb_data cb)) in
       let db2 := update_by_id (_id o) (fun _ => o') db1 in
       phonepe_callback decode env req db1
       = (SendText 200 "Callback processed successfully.", db2,
          if is_payment_success cb then order_emails o' else [])
       /\ order_status_by_mtid user m db2
          = SendPaymentStatus (_id o) (callback_paymentStatus cb).
Proof.
  intros Hunused Hrun Hv.
  assert (Hchanged : db1 <> db).
  { intros ->. apply initiate_payment_inv in Hrun
      as [(_ & _ & e & He)|(o & _ & _ & _ & _ & _ & _ & _ & _ & _ & Hg)];
      [discriminate|].
    destruct gateway as [data|st msg errmsg].
    - destruct (resp_success data && _); destruct Hg as [Hr Hdb];
        [|discriminate].
      apply (f_equal (@List.length Order)) in Hdb.
      rewrite length_app in Hdb. cbn in Hdb. lia.
    - destruct Hg as [Hr _]. discriminate. }
  destruct (initiate_payment_created _ _ _ _ _ _ _ _ _ Hunused Hrun Hchanged)
    as (o & Hpm & Hps & Hst & Hm & Hu & Ht & Hfind & Hpoll & Hg).
  assert (Hdb : db1 = (db ++ [o])%list).
  { apply initiate_payment_inv in Hrun
      as [(_ & _ & e & He)|(c & _ & _ & _ & _ & _ & _ & _ & _ & _ & Hc)];
      [discriminate|].
    destruct gateway as [data|st msg errmsg]; [|exact Hg].
    destruct (resp_success data && _); [exact Hg|].
    destruct Hc as [Hr _]. discriminate. }
  subst db1. exists o, (total o).
  assert (Htruthy : truthy_str m = true).
  { destruct Hv as (? & ? & _ & _ & _ & _ & _ & _ & _ & Hmt). exact Hmt. }
  split; [reflexivity|]. split; [exact Ht|]. split.
  { unfold order_status_by_mtid. rewrite Htruthy, Hpoll. cbn.
    now rewrite Hps. }
  destruct (callback_on_open_order decode env req cb m _ o Hv Hfind)
    as (_ & Hcb & _); try congruence.
  destruct (classify_fields cb o)
    as (Hid & Hu' & Hpm' & Hm' & _ & Hp & _ & _ & _).
  assert (Hsame :
    saved_order (classify cb o)
    = set_gatewayTransactionId
        (set_paymentStatus (set_status o (callback_status cb (total o)))
           (callback_paymentStatus cb))
        (data_field cb_transactionId (cb_data cb))).
  { unfold classify, callback_status, callback_paymentStatus,
      num_strict_neq, num_strict_eq.
    destruct (is_payment_success cb); cbn; [|reflexivity].
    destruct (SFeqb _ (total o)); reflexivity. }
  set (o' := saved_order (classify cb o)) in *.
  rewrite (pre_save_online o') in Hcb by congruence.
  unfold Order_save in Hcb. rewrite (pre_save_online o') in Hcb by congruence.
  rewrite Hid in Hcb. cbn zeta. rewrite <- Hsame. split; [exact Hcb|].
  unfold order_status_by_mtid. rewrite Htruthy. cbn [negb].
  unfold Order_findOne.
  rewrite (find_after_replace (status_query m user) _ o o' Hpoll Hid).
  - cbn. now rewrite Hid, Hp.
  - apply status_query_iff. split; congruence.
Qed.

(** X15.  When the gateway answered a payment initiation with an explicit
    failure, the order stored under the merchant transaction id is failed,
    and every later verified callback for that id, a success callback
    included, is acknowledged as already processed and changes nothing. *)
Theorem callback_after_failed_initiation
  (decode : string -> option Callback) (env env' : Env) (user : User)
  (body : OrderBody) (m : string) (data : PhonePeResponse)
  (req : CallbackRequest) (cb : Callback) (db db1 : Store) (r : Reply)
  (n : list Notification) :
  mtid_unused m db ->
  initiate_payment env user body m (Resolved data) db = (r, db1, n) ->
  db1 <> db ->
  resp_success data && truthy_opt_str (resp_redirect_url data) = false ->
  verified_callback decode env' req cb m ->
  (exists o,
      Order_findOne (has_mtid m) db1 = Some o
      /\ paymentStatus o = failed /\ status o = payment_failed)
  /\ phonepe_callback decode env' req db1
     = (SendText 200 "Already processed.", db1, []).
Proof.
  intros Hunused Hrun Hchanged Hfail Hv.
  destruct (initiate_payment_created _ _ _ _ _ _ _ _ _ Hunused Hrun Hchanged)
    as (o & _ & _ & _ & Hm & _ & _ & Hfind & _ & Hg).
  rewrite Hfail in Hg. subst db1.
  assert (Hfound :
    Order_findOne (has_mtid m)
      (update_by_id (_id o) (fun _ => mark_payment_failed o)
         (db ++ [o])%list) = Some (mark_payment_failed o)).
  { apply (find_after_replace (has_mtid m) _ o); auto.
    now apply has_mtid_iff. }
  split; [eauto|].
  unfold phonepe_callback.
  rewrite (callback_on_finalized_order decode env' req cb m _
             (mark_payment_failed o) Hv Hfound); auto.
Qed.

(** X16.  A COD order that carries a merchant transaction id is never
    settled by a callback: the pre-save hook puts its payment status back
    to [not_applicable], so each delivery of a verified success callback
    is processed anew and requests the notifications again. *)
Theorem callback_on_cod_order_never_settles
  (decode : string -> option Callback) (env : Env) (req : CallbackRequest)
  (cb : Callback) (m : string) (db : Store) (o : Order) :
  verified_callback decode env req cb m ->
  Order_findOne (has_mtid m) db = Some o ->
  paymentMethod o = cod ->
  paymentStatus o = not_applicable ->
  is_payment_success cb = true ->
  exists db1 db2 o1,
    phonepe_callback decode env req db
    = (SendText 200 "Callback processed successfully.", db1,
       order_emails o)
    /\ Order_findOne (has_mtid m) db1 = Some o1
    /\ paymentStatus o1 = not_applicable
    /\ phonepe_callback decode env req db1
       = (SendText 200 "Callback processed successfully.", db2,
          order_emails o).
Proof.
  intros Hv Hfind Hcod Hps Hsucc.
  destruct (callback_on_open_order decode env req cb m db o Hv Hfind)
    as (_ & Hrun & Hfound); try congruence.
  destruct (classify_fields cb o)
    as (Hid & Hu & Hpm & _ & _ & _ & _ & _ & _).
  set (o' := saved_order (classify cb o)) in *.
  set (o1 := pre_save false o') in *.
  assert (Hcod1 : paymentMethod o1 = cod)
    by (unfold o1; rewrite pre_save_paymentMethod; congruence).
  assert (Hps1 : paymentStatus o1 = not_applicable).
  { unfold o1, pre_save. replace (paymentMethod o') with cod by congruence.
    reflexivity. }
  assert (Hmail : forall x, _id x = _id o -> userId x = userId o ->
                            order_emails x = order_emails o).
  { intros x Hx Hy. unfold order_emails. now rewrite Hx, Hy. }
  rewrite Hsucc in Hrun.
  rewrite (Hmail o1) in Hrun
    by (unfold o1; rewrite ?pre_save_id, ?pre_save_userId; assumption).
  destruct (callback_on_open_order decode env req cb m _ o1 Hv Hfound)
    as (_ & Hrun2 & _); try congruence.
  destruct (classify_fields cb o1) as (Hid1 & Hu1 & _).
  rewrite Hsucc in Hrun2.
  rewrite (Hmail (pre_save false (saved_order (classify cb o1)))) in Hrun2.
  - eexists _, _, o1. repeat split; eauto.
  - rewrite pre_save_id, Hid1. unfold o1. now rewrite pre_save_id.
  - rewrite pre_save_userId, Hu1. unfold o1. now rewrite pre_save_userId.
Qed.

End Flow.

(* ================================================================== *)
(** ** Overlapping deliveries *)
(* ================================================================== *)

Section Overlap.

Variable decode : string -> option Callback.
Variable env : Env.

Lemma write_modified_paths_fields loaded local stored :
  let w := write_modified_paths loaded local stored in
  fixed_part w = fixed_part stored
  /\ status w = (if Status_eqb (status local) (status loaded)
                 then status stored else status local)
  /\ paymentStatus w
     = (if PaymentStatus_eqb (paymentStatus local) (paymentStatus loaded)
        then paymentStatus stored else paymentStatus local)
  /\ gatewayTransactionId w
     = (if opt_string_eqb (gatewayTransactionId local)
             (gatewayTransactionId loaded)
        then gatewayTransactionId stored else gatewayTransactionId local).
Proof.
  unfold write_modified_paths.
  destruct (Status_eqb _ _), (PaymentStatus_eqb _ _), (opt_string_eqb _ _);
    cbn; repeat split; reflexivity.
Qed.

Lemma write_modified_paths_id loaded local stored :
  _id (write_modified_paths loaded local stored) = _id stored
  /\ userId (write_modified_paths loaded local stored) = userId stored
  /\ merchantTransactionId (write_modified_paths loaded local stored)
     = merchantTransactionId stored.
Proof.
  destruct (write_modified_paths_fields loaded local stored) as (Hfix & _).
  unfold fixed_part in Hfix. inversion Hfix. auto.
Qed.

Lemma update_by_id_compose id f g db :
  (forall d, _id (f d) = _id d) ->
  update_by_id id g (update_by_id id f db)
  = update_by_id id (fun d => g (f d)) db.
Proof.
  intros Hf. unfold update_by_id. rewrite map_map. apply map_ext.
  intros d. destruct (Nat.eqb (_id d) id) eqn:E.
  - now rewrite Hf, E.
  - now rewrite E.
Qed.

Lemma findOne_mtid_update m id g db o :
  (forall d, merchantTransactionId (g d) = merchantTransactionId d) ->
  Order_findOne (has_mtid m) db = Some o -> _id o = id ->
  Order_findOne (has_mtid m) (update_by_id id g db) = Some (g o).
Proof.
  intros Hg Hfind Hid. unfold Order_findOne, update_by_id in *.
  induction db as [|d db IH]; cbn in *; [discriminate|].
  assert (Hsame : forall x, has_mtid m (g x) = has_mtid m x)
    by (intros x; unfold has_mtid; now rewrite Hg).
  destruct (has_mtid m d) eqn:Ed.
  - inversion Hfind; subst d. rewrite Hid, Nat.eqb_refl.
    now rewrite Hsame, Ed.
  - destruct (Nat.eqb (_id d) id); [rewrite Hsame|]; rewrite Ed; auto.
Qed.

(** The handler with the loaded document kept reaches [save] as the plain
    one does. *)
Lemma loaded_read req cb m db o :
  verified_callback decode env req cb m ->
  Order_findOne (has_mtid m) db = Some o ->
  paymentStatus o = pending ->
  callback_until_save_loaded decode env req db = inr (o, classify cb o).
Proof.
  intros (payload & header & Hp & Hpt & Hh & Hht & Hv & Hd & Hm & Hmt)
    Hfind Hps.
  unfold callback_until_save_loaded.
  rewrite Hp, Hh. cbn [truthy_opt_str js_string]. rewrite Hpt, Hht.
  cbn [negb]. rewrite Hv. cbn [negb]. rewrite Hd, Hm.
  cbn [truthy_opt_str js_string]. rewrite Hmt. cbn [negb].
  now rewrite Hfind, Hps.
Qed.

(** In uninterrupted runs the two handlers agree: saving the modified
    paths of a document on the document it was loaded from gives the
    document. *)
Lemma write_modified_paths_same cb o :
  write_modified_paths o (saved_order (classify cb o)) o
  = saved_order (classify cb o).
Proof.
  unfold classify, write_modified_paths, num_strict_neq.
  destruct o as [i u its a pm sc t mt gt ps gw st].
  destruct (is_payment_success cb); [destruct (SFeqb _ _)|];
    cbn; destruct st, ps;
    destruct gt as [g|], (data_field cb_transactionId (cb_data cb)) as [g'|];
    cbn; try reflexivity;
    destruct (g' =? g)%string eqn:E; try reflexivity;
    apply String.eqb_eq in E; now subst.
Qed.


End Overlap.

(* ================================================================== *)
(** ** Payment initiation: checks before the order is created *)
(* ================================================================== *)

(** X18.  A payment initiation requests no notification, whatever happens.
    When a gateway variable is missing from the environment, or the
    shipping address carries no phone number, it answers with an error of
    status 400 or 500 and stores no order. *)
Theorem initiate_payment_checks_first
  (env : Env) (user : User) (body : OrderBody) (m : string)
  (gateway : AxiosResult) (db : Store) :
  snd (initiate_payment env user body m gateway db) = []
  /\ (env_configured env = false
      \/ match b_shippingAddress body with
         | Some a => truthy_opt_str (in_phone a)
         | None => false
         end = false ->
      outcome_store (initiate_payment env user body m gateway db) = db
      /\ exists msg code,
           outcome_reply (initiate_payment env user body m gateway db)
           = Next (AppError msg code)
           /\ (code = 400 \/ code = 500)).
Proof.
  split.
  - destruct (initiate_payment env user body m gateway db)
      as [[r db'] n] eqn:Hrun.
    apply initiate_payment_inv in Hrun as [(_ & -> & _)|(o & H)];
      [reflexivity|].
    cbn. tauto.
  - intros Hbad. unfold initiate_payment.
    destruct (negb (opt_str_is (b_paymentMethod body) "online"));
      [cbn; eauto 6|].
    destruct (b_shippingAddress body) as [a|]; cbn [is_some negb orb];
      [|cbn; eauto 6].
    destruct (negb (truthy_opt_num (b_total body))); cbn [orb];
      [cbn; eauto 6|].
    destruct (negb (is_some (b_items body))); cbn [orb]; [cbn; eauto 6|].
    destruct (items_empty (b_items body)); cbn [orb]; [cbn; eauto 6|].
    destruct (truthy_opt_str (in_phone a)); cbn [negb];
      [|cbn; eauto 6].
    destruct Hbad as [->|Hphone]; [cbn; eauto 6|discriminate].
Qed.

(* ================================================================== *)
(** ** The further statements at the sample data *)
(* ================================================================== *)

Ltac no_order_yet :=
  let d := fresh "d" in intros d [].

Lemma initiate_payment_checks_first_witness :
  outcome_store
    (initiate_payment Fixture.env_without_salt Sample.alice
       Sample.online_body "MT_1" Sample.redirect_response []) = []
  /\ exists msg code,
       outcome_reply
         (initiate_payment Fixture.env_without_salt Sample.alice
            Sample.online_body "MT_1" Sample.redirect_response [])
       = Next (AppError msg code)
       /\ (code = 400 \/ code = 500).
Proof.
  apply (proj2 (initiate_payment_checks_first Fixture.env_without_salt
                  Sample.alice Sample.online_body "MT_1"
                  Sample.redirect_response [])).
  left. reflexivity.
Defined.

Lemma reachable_orders_consistent_witness :
  order_consistent Sample.cod_created.
Proof.
  apply (reachable_orders_consistent
           (outcome_store
              (create_cod_order Sample.alice Sample.cod_body []))
           Sample.cod_created).
  - apply reach_create_cod_order, reach_empty.
  - vm_compute. left. reflexivity.
Defined.

Lemma reachable_orders_valid_witness :
  order_valid Sample.online_created = true.
Proof.
  apply (reachable_orders_valid
           (outcome_store
              (initiate_payment Sample.env Sample.alice Sample.online_body
                 "MT_1" Sample.redirect_response []))
           Sample.online_created).
  - apply reach_initiate_payment, reach_empty.
  - vm_compute. left. reflexivity.
Defined.

Lemma routes_keep_existing_orders_witness :
  exists new,
    (new = [] \/ exists o, new = [o])
    /\ map fixed_part
         (outcome_store
            (phonepe_callback Sample.decode Sample.env
               (Sample.accepted_request "paid-50000")
               (outcome_store
                  (initiate_payment Sample.env Sample.alice
                     Sample.online_body "MT_1" Sample.redirect_response
                     []))))
       = map fixed_part
           (outcome_store
              (initiate_payment Sample.env Sample.alice Sample.online_body
                 "MT_1" Sample.redirect_response []) ++ new)%list.
Proof.
  apply routes_keep_existing_orders.
  - apply reach_initiate_payment, reach_empty.
  - apply result_phonepe_callback.
Defined.

Lemma callback_leaves_settled_orders_witness :
  In Sample.cod_created
    (outcome_store
       (phonepe_callback Sample.decode Sample.env
          (Sample.accepted_request "paid-50000")
          (outcome_store
             (create_cod_order Sample.alice Sample.cod_body [])))).
Proof.
  apply callback_leaves_settled_orders.
  - apply reach_create_cod_order, reach_empty.
  - vm_compute. left. reflexivity.
  - left. reflexivity.
Defined.

Lemma callback_unmatched_is_acknowledged_witness :
  phonepe_callback Sample.decode Sample.env
    (mkCallbackRequest (Some "not-json") (Some expectedChecksum_literal))
    [Sample.pending_order]
  = (SendText 500 "Internal Server Error processing callback.",
     [Sample.pending_order], [])
  /\ phonepe_callback Sample.decode Sample.env
       (mkCallbackRequest (Some "declined") (Some expectedChecksum_literal))
       []
     = (SendText 200 "Order not found, acknowledged.", [], []).
Proof.
  split.
  - apply (proj1 (callback_unmatched_is_acknowledged Sample.decode
                    Sample.env "not-json" expectedChecksum_literal
                    [Sample.pending_order] eq_refl eq_refl eq_refl)).
    reflexivity.
  - apply (proj2 (proj2 (callback_unmatched_is_acknowledged Sample.decode
                           Sample.env "declined" expectedChecksum_literal
                           [] eq_refl eq_refl eq_refl))
             Sample.failure_callback "MT_1").
    + reflexivity.
    + reflexivity.
    + reflexivity.
    + no_order_yet.
Defined.

Lemma callback_notifies_only_when_paid_witness :
  exists o',
    In o' [Sample.paid_order] /\ paymentStatus o' = paid
    /\ order_emails Sample.paid_order = order_emails o'
    /\ SendText 200 "Callback processed successfully."
       = SendText 200 "Callback processed successfully.".
Proof.
  apply (callback_notifies_only_when_paid Sample.decode Sample.env
           (Sample.accepted_request "paid-50000") [Sample.pending_order]).
  - sample_store_ok.
  - vm_compute. reflexivity.
  - discriminate.
Defined.

Lemma callback_ignores_salt_witness :
  phonepe_callback Sample.decode Sample.env
    (mkCallbackRequest (Some "paid-50000")
       (Some (callback_checksum "paid-50000" "salt-key" "1")))
    [Sample.pending_order]
  = (SendText 400 "Checksum mismatch", [Sample.pending_order], []).
Proof.
  apply (proj2 (callback_ignores_salt Sample.decode
                  (Sample.accepted_request "paid-50000")
                  [Sample.pending_order]) Sample.env "paid-50000").
  reflexivity.
Defined.

Lemma initiation_then_callback_witness :
  exists o, [Sample.online_created] = ([] ++ [o])%list.
Proof.
  destruct (initiation_then_callback Sample.decode Sample.env Sample.alice
              Sample.online_body "MT_1" "https://gateway.example/pay/1"
              Sample.redirect_response
              (Sample.accepted_request "paid-50000")
              (Sample.success_callback (Some (num_of_Z 50000)))
              [] [Sample.online_created] [])
    as (o & t & Hdb & _).
  - no_order_yet.
  - vm_compute. reflexivity.
  - sample_verified.
  - exists o. exact Hdb.
Defined.

Lemma callback_after_failed_initiation_witness :
  phonepe_callback Sample.decode Sample.env
    (Sample.accepted_request "paid-50000")
    [mark_payment_failed Sample.online_created]
  = (SendText 200 "Already processed.",
     [mark_payment_failed Sample.online_created], []).
Proof.
  apply (callback_after_failed_initiation Sample.decode Sample.env
           Sample.env Sample.alice Sample.online_body "MT_1"
           Fixture.failure_response
           (Sample.accepted_request "paid-50000")
           (Sample.success_callback (Some (num_of_Z 50000)))
           [] [mark_payment_failed Sample.online_created]
           (Next (AppError "Bad request" 500)) []).
  - no_order_yet.
  - vm_compute. reflexivity.
  - discriminate.
  - reflexivity.
  - sample_verified.
Defined.

Lemma callback_on_cod_order_never_settles_witness :
  exists db1 db2 o1,
    phonepe_callback Sample.decode Sample.env
      (Sample.accepted_request "paid-50000") [Fixture.spoofed_cod_order]
    = (SendText 200 "Callback processed successfully.", db1,
       order_emails Fixture.spoofed_cod_order)
    /\ Order_findOne (has_mtid "MT_1") db1 = Some o1
    /\ paymentStatus o1 = not_applicable
    /\ phonepe_callback Sample.decode Sample.env
         (Sample.accepted_request "paid-50000") db1
       = (SendText 200 "Callback processed successfully.", db2,
          order_emails Fixture.spoofed_cod_order).
Proof.
  apply (callback_on_cod_order_never_settles Sample.decode Sample.env
           (Sample.accepted_request "paid-50000")
           (Sample.success_callback (Some (num_of_Z 50000))) "MT_1"
           [Fixture.spoofed_cod_order] Fixture.spoofed_cod_order).
  - sample_verified.
  - reflexivity.
  - reflexivity.
  - reflexivity.
  - reflexivity.
Defined.


(* ================================================================== *)
(** ** Creation requests the schema rejects *)
(* ================================================================== *)

Lemma cast_items_rejects i l :
  In i l -> cast_item i = None -> cast_items l = None.
Proof.
  induction l as [|x l IH]; cbn; [tauto|].
  intros [->|Hin] Hbad.
  - now rewrite Hbad.
  - rewrite (IH Hin Hbad). destruct (cast_item x); reflexivity.
Qed.

Lemma Order_create_rejects data db i l :
  d_items data = Some l -> In i l -> cast_item i = None ->
  Order_create data db = Throw ValidationError.
Proof.
  intros Hitems Hin Hbad. unfold Order_create, new_document.
  rewrite Hitems, (cast_items_rejects i l Hin Hbad).
  destruct (d_userId data); reflexivity.
Qed.

(** X19.  A creation request in which some item lacks its product, its
    price or its quantity, or has a quantity that is [NaN] or below 1, is
    answered with an error by both creation routes: no order is stored and
    no notification is requested. *)
Theorem creation_rejects_invalid_item
  (env : Env) (user : User) (body : OrderBody) (m : string)
  (gateway : AxiosResult) (db : Store) (l : list ItemInput) (i : ItemInput) :
  b_items body = Some l -> In i l ->
  in_productId i = None \/ in_price i = None \/ in_quantity i = None
  \/ (exists q, in_quantity i = Some q /\ SFleb (num_of_Z 1) q = false) ->
  (exists e, create_cod_order user body db = (Next e, db, []))
  /\ (exists e,
         initiate_payment env user body m gateway db = (Next e, db, [])).
Proof.
  intros Hitems Hin Hbad.
  assert (Hcast : cast_item i = None).
  { unfold cast_item. destruct Hbad as [->|[Hp|[Hq|(q & Hq & Hmin)]]].
    - reflexivity.
    - rewrite Hp. destruct (in_productId i), (in_quantity i); reflexivity.
    - rewrite Hq. destruct (in_productId i); reflexivity.
    - rewrite Hq. destruct (in_productId i); [|reflexivity].
      destruct (in_price i) as [pr|]; [|reflexivity].
      unfold cast_number. destruct (isNaN q) eqn:Hnan; [reflexivity|].
      destruct (isNaN pr); [reflexivity|]. now rewrite Hmin. }
  split.
  - unfold create_cod_order.
    destruct (negb (opt_str_is (b_paymentMethod body) "cod")); [eauto|].
    match goal with |- context [if ?c then _ else _] => destruct c end;
      [eauto|].
    rewrite (Order_create_rejects _ db i l); eauto.
  - unfold initiate_payment.
    destruct (negb (opt_str_is (b_paymentMethod body) "online")); [eauto|].
    match goal with |- context [if ?c then _ else _] => destruct c end;
      [eauto|].
    destruct (negb (env_configured env)); [eauto|].
    rewrite (Order_create_rejects _ db i l); eauto.
Qed.

Lemma creation_rejects_invalid_item_witness :
  (exists e,
      create_cod_order Sample.alice
        (mkOrderBody (Some "cod")
           (Some [mkItemInput (Some 21%nat) (Some (num_of_Z 0))
                    (Some (num_of_Z 100))])
           (Some Sample.address_input) None (Some (num_of_Z 5)) None None)
        [] = (Next e, [], []))
  /\ (exists e,
         initiate_payment Sample.env Sample.alice
           (mkOrderBody (Some "cod")
              (Some [mkItemInput (Some 21%nat) (Some (num_of_Z 0))
                       (Some (num_of_Z 100))])
              (Some Sample.address_input) None (Some (num_of_Z 5)) None
              None)
           "MT_1" Sample.redirect_response [] = (Next e, [], [])).
Proof.
  apply (creation_rejects_invalid_item Sample.env Sample.alice _ "MT_1"
           Sample.redirect_response []
           [mkItemInput (Some 21%nat) (Some (num_of_Z 0))
              (Some (num_of_Z 100))]
           (mkItemInput (Some 21%nat) (Some (num_of_Z 0))
              (Some (num_of_Z 100)))).
  - reflexivity.
  - left. reflexivity.
  - right. right. right. exists (num_of_Z 0). split; reflexivity.
Defined.
